(** * SimpleMicroservices: the Student/Course CRUD service

    A shallow embedding of [main.py], [models/course.py] and
    [models/student.py], and the properties of the handlers, the partial
    update and the list filters.

    Conventions of the embedding.
    - Python [str] is [string]; [str.lower] and the regular expression
      classes are modelled on the ASCII range (bytes outside [A-Z] are left
      alone by [lower], and only [0-9] counts as a digit).
    - [uuid4()] and [datetime.utcnow()] are the two inputs the environment
      hands to a handler: every handler that calls them takes the fresh
      identifier and the current time as arguments.
    - The module globals [students] and [courses] are insertion-ordered
      dictionaries ([odict]); a handler is a function from the state of the
      two dictionaries to an outcome and the next state.
    - The dictionaries that [model_dump] builds and that a model constructor
      receives as keyword arguments are [gmap string _]. *)

From Stdlib Require Import ZArith NArith String Ascii List Bool Lia.
From stdpp Require Import base option gmap strings list fin_maps.
Import ListNotations.

Local Open Scope string_scope.
Local Open Scope Z_scope.

(** ** Python strings *)

Module pystr.

(** [c.lower()] for one ASCII character. *)
Definition lower_char (c : ascii) : ascii :=
  let n := N_of_ascii c in
  if ((65 <=? n) && (n <=? 90))%N then ascii_of_N (n + 32) else c.

(** [s.lower()] *)
Fixpoint lower (s : string) : string :=
  match s with
  | EmptyString => EmptyString
  | String c s' => String (lower_char c) (lower s')
  end.

(** [s.startswith(p)] *)
Fixpoint startswith (p s : string) : bool :=
  match p, s with
  | EmptyString, _ => true
  | String _ _, EmptyString => false
  | String a p', String b s' => if ascii_dec a b then startswith p' s' else false
  end.

(** [needle in hay] *)
Fixpoint contains (needle hay : string) : bool :=
  startswith needle hay ||
  match hay with
  | EmptyString => false
  | String _ hay' => contains needle hay'
  end.

(** [a == b] on two strings *)
Definition eqb (a b : string) : bool := bool_decide (a = b).

(** [format(n, "0<w>d")] for [n < 10^w]: the [w] low decimal digits. *)
Fixpoint zfill (w : nat) (n : N) (acc : string) : string :=
  match w with
  | O => acc
  | S w' => zfill w' (n / 10)%N (String (ascii_of_N (48 + n mod 10)) acc)
  end.

End pystr.

(** ** Scalars of the standard library *)

(** [uuid.UUID]: a 128-bit number. *)
Definition UUID := N.

(** [datetime.datetime]: microseconds on the UTC time line. *)
Definition datetime := Z.

(** [datetime.date] *)
Record date := mkdate { year : N; month : N; day : N }.

#[global] Instance date_eq_dec : EqDecision date.
Proof. solve_decision. Defined.

(** [str(d)], that is [d.isoformat()]: [YYYY-MM-DD]. *)
Definition date_str (d : date) : string :=
  pystr.zfill 4 (year d) ("-" ++ pystr.zfill 2 (month d) ("-" ++ pystr.zfill 2 (day d) "")).

(** [str(x)] for [x : Optional[date]]: [str(None)] is ["None"]. *)
Definition opt_date_str (x : option date) : string :=
  match x with
  | Some d => date_str d
  | None => "None"
  end.

(** Values that occur in the dictionaries of [model_dump]: the scalars, and
    for [Student.courses] a list of dumped courses. *)
Inductive scalar :=
| SNone
| SStr (s : string)
| SInt (z : Z)
| SUUID (u : UUID)
| SDatetime (t : datetime)
| SDate (d : date).

(** [a == b] on two scalars *)
#[global] Instance scalar_eq_dec : EqDecision scalar.
Proof. solve_decision. Defined.

Inductive value :=
| Atom (x : scalar)
| DictList (l : list (gmap string scalar)).

Definition of_opt {A} (f : A -> scalar) (x : option A) : scalar :=
  match x with
  | Some a => f a
  | None => SNone
  end.

(** ** Exceptions and outcomes *)

Inductive exn :=
| HTTPException (status_code : Z) (detail : string)
| TypeError
| NameError
| AttributeError
| KeyError
| ValidationError.

Inductive outcome (A : Type) :=
| Return (a : A)
| Raise (e : exn).
Arguments Return {A} a.
Arguments Raise {A} e.

Definition bind {A B} (m : outcome A) (f : A -> outcome B) : outcome B :=
  match m with
  | Return a => f a
  | Raise e => Raise e
  end.

(** A list comprehension [[x for x in l if p(x)]] whose condition may raise:
    the elements are visited in order and the first exception ends it. *)
Fixpoint comprehension {A} (p : A -> outcome bool) (l : list A) : outcome (list A) :=
  match l with
  | [] => Return []
  | x :: l' =>
      match p x with
      | Raise e => Raise e
      | Return b =>
          match comprehension p l' with
          | Raise e => Raise e
          | Return r => Return (if b then x :: r else r)
          end
      end
  end.

(** ** Insertion-ordered dictionaries *)

Section odict.
Context {K V : Type} `{EqDecision K}.

Definition odict := list (K * V).

(** [d.get(k)]; [k in d] is [is_Some] of it. *)
Fixpoint oget (k : K) (d : odict) : option V :=
  match d with
  | [] => None
  | (k', v) :: d' => if decide (k' = k) then Some v else oget k d'
  end.

Definition omem (k : K) (d : odict) : bool :=
  match oget k d with Some _ => true | None => false end.

(** [d[k] = v]: an existing key keeps its position, a new one goes last. *)
Fixpoint oset (k : K) (v : V) (d : odict) : odict :=
  match d with
  | [] => [(k, v)]
  | (k', v') :: d' =>
      if decide (k' = k) then (k, v) :: d' else (k', v') :: oset k v d'
  end.

(** [del d[k]] *)
Fixpoint odel (k : K) (d : odict) : odict :=
  match d with
  | [] => []
  | (k', v') :: d' =>
      if decide (k' = k) then odel k d' else (k', v') :: odel k d'
  end.

(** [list(d.values())] *)
Definition ovalues (d : odict) : list V := map snd d.

Definition okeys (d : odict) : list K := map fst d.
End odict.
Arguments odict : clear implicits.

(** ** Reading keyword arguments

    A model constructor called with keyword arguments validates each
    field from the keyword dictionary. The dictionaries built here come
    from [model_dump], so a field holds a value of its declared type or
    [None]; a value of another type is a validation error (the coercions
    that pydantic would try on it are never reached). [None] of the result
    is [ValidationError]. *)

Section kwargs.
Context {Val : Type} (atom : Val -> option scalar).

Definition field (d : gmap string Val) (k : string) : option scalar :=
  d !! k ≫= atom.

(** a required [str] field *)
Definition req_str (d : gmap string Val) (k : string) : option string :=
  match field d k with Some (SStr s) => Some s | _ => None end.

(** a required [int] field *)
Definition req_int (d : gmap string Val) (k : string) : option Z :=
  match field d k with Some (SInt z) => Some z | _ => None end.

(** a required [UUID] field *)
Definition req_uuid (d : gmap string Val) (k : string) : option UUID :=
  match field d k with Some (SUUID u) => Some u | _ => None end.

(** a required [datetime] field *)
Definition req_datetime (d : gmap string Val) (k : string) : option datetime :=
  match field d k with Some (SDatetime t) => Some t | _ => None end.

(** [Optional[str]] with default [None] *)
Definition opt_str (d : gmap string Val) (k : string) : option (option string) :=
  match d !! k with
  | None => Some None
  | Some v =>
      match atom v with
      | Some SNone => Some None
      | Some (SStr s) => Some (Some s)
      | _ => None
      end
  end.

(** [Optional[int]] with default [None] *)
Definition opt_int (d : gmap string Val) (k : string) : option (option Z) :=
  match d !! k with
  | None => Some None
  | Some v =>
      match atom v with
      | Some SNone => Some None
      | Some (SInt z) => Some (Some z)
      | _ => None
      end
  end.

(** [Optional[date]] with default [None] *)
Definition opt_date (d : gmap string Val) (k : string) : option (option date) :=
  match d !! k with
  | None => Some None
  | Some v =>
      match atom v with
      | Some SNone => Some None
      | Some (SDate x) => Some (Some x)
      | _ => None
      end
  end.
End kwargs.

(** [d.update(other)] on keyword dictionaries: the keys of [other] win. *)
Definition dict_update {Val} (d other : gmap string Val) : gmap string Val :=
  other ∪ d.

(** One entry of [model_dump(exclude_unset=True)]: present only when the
    field was set. *)
Definition dump_set {Val} (k : string) (x : option Val) (d : gmap string Val) : gmap string Val :=
  match x with
  | Some v => <[k := v]> d
  | None => d
  end.

(** ** models/course.py *)

Module course.

Record CourseBase := {
  department_code : string;
  course_code : string;
  title : string;
  instructor : string;
  days : string;
  start_time : string;
  end_time : string;
  location : string;
  size : Z;
  credit : Z;
  section : option string;
  enrollment : option Z
}.

(** [CourseCreate(CourseBase)] adds no field. *)
Definition CourseCreate := CourseBase.

(** [CourseUpdate]: every field is [Optional] with default [None]. The outer
    option says whether the field was set in the payload
    ([model_fields_set]), the inner one is the value, [None] for an explicit
    null. *)
Record CourseUpdate := {
  u_department_code : option (option string);
  u_course_code : option (option string);
  u_title : option (option string);
  u_instructor : option (option string);
  u_days : option (option string);
  u_start_time : option (option string);
  u_end_time : option (option string);
  u_location : option (option string);
  u_size : option (option Z);
  u_credit : option (option Z);
  u_section : option (option string);
  u_enrollment : option (option Z)
}.

(** [CourseRead(CourseBase)] adds [id], [created_at] and [updated_at]. *)
Record CourseRead := {
  base :> CourseBase;
  id : UUID;
  created_at : datetime;
  updated_at : datetime
}.

(** [c.model_dump()] for a [CourseBase] (and so a [CourseCreate]). *)
Definition CourseBase_model_dump (c : CourseBase) : gmap string scalar :=
  <["department_code" := SStr (department_code c)]>
  (<["course_code" := SStr (course_code c)]>
  (<["title" := SStr (title c)]>
  (<["instructor" := SStr (instructor c)]>
  (<["days" := SStr (days c)]>
  (<["start_time" := SStr (start_time c)]>
  (<["end_time" := SStr (end_time c)]>
  (<["location" := SStr (location c)]>
  (<["size" := SInt (size c)]>
  (<["credit" := SInt (credit c)]>
  (<["section" := of_opt SStr (section c)]>
  (<["enrollment" := of_opt SInt (enrollment c)]> ∅))))))))))).

(** [c.model_dump()] for a [CourseRead]. *)
Definition CourseRead_model_dump (c : CourseRead) : gmap string scalar :=
  <["id" := SUUID (id c)]>
  (<["created_at" := SDatetime (created_at c)]>
  (<["updated_at" := SDatetime (updated_at c)]>
  (CourseBase_model_dump c))).

(** [u.model_dump(exclude_unset=True)] *)
Definition CourseUpdate_model_dump_exclude_unset (u : CourseUpdate) : gmap string scalar :=
  dump_set "department_code" (of_opt SStr <$> u_department_code u)
  (dump_set "course_code" (of_opt SStr <$> u_course_code u)
  (dump_set "title" (of_opt SStr <$> u_title u)
  (dump_set "instructor" (of_opt SStr <$> u_instructor u)
  (dump_set "days" (of_opt SStr <$> u_days u)
  (dump_set "start_time" (of_opt SStr <$> u_start_time u)
  (dump_set "end_time" (of_opt SStr <$> u_end_time u)
  (dump_set "location" (of_opt SStr <$> u_location u)
  (dump_set "size" (of_opt SInt <$> u_size u)
  (dump_set "credit" (of_opt SInt <$> u_credit u)
  (dump_set "section" (of_opt SStr <$> u_section u)
  (dump_set "enrollment" (of_opt SInt <$> u_enrollment u) ∅))))))))))).

(** [CourseBase] built from keyword arguments [d]: the validation of the twelve declared fields. *)
Definition CourseBase_init {Val} (atom : Val -> option scalar) (d : gmap string Val) : option CourseBase :=
  dc ← req_str atom d "department_code";
  cc ← req_str atom d "course_code";
  ti ← req_str atom d "title";
  ins ← req_str atom d "instructor";
  da ← req_str atom d "days";
  st ← req_str atom d "start_time";
  en ← req_str atom d "end_time";
  lo ← req_str atom d "location";
  sz ← req_int atom d "size";
  cr ← req_int atom d "credit";
  se ← opt_str atom d "section";
  enr ← opt_int atom d "enrollment";
  Some {| department_code := dc; course_code := cc; title := ti;
          instructor := ins; days := da; start_time := st; end_time := en;
          location := lo; size := sz; credit := cr; section := se;
          enrollment := enr |}.

(** [CourseRead] built from keyword arguments [d] *)
Definition CourseRead_init (d : gmap string scalar) : option CourseRead :=
  b ← CourseBase_init Some d;
  i ← req_uuid Some d "id";
  ca ← req_datetime Some d "created_at";
  ua ← req_datetime Some d "updated_at";
  Some {| base := b; id := i; created_at := ca; updated_at := ua |}.

(** [getattr(c, name)] on a [CourseRead]: the declared fields are its only
    attributes that hold data; [None] is [AttributeError]. *)
Definition CourseRead_getattr (c : CourseRead) (name : string) : option scalar :=
  CourseRead_model_dump c !! name.

End course.

(** ** Constrained strings: [StringConstraints(pattern=...)]

    The patterns of this program are anchored sequences of bounded
    repetitions of a character class, [^C1{a,b}C2{c,d}$]. A pattern is the
    list of its pieces; [^] is the start and [$] the end of the text. *)

Module re.

Record piece := { cls : ascii -> bool; lo : nat; hi : nat }.

(** [[a-z]] *)
Definition lower_az (c : ascii) : bool :=
  let n := N_of_ascii c in ((97 <=? n) && (n <=? 122))%N.

(** [\d] *)
Definition digit (c : ascii) : bool :=
  let n := N_of_ascii c in ((48 <=? n) && (n <=? 57))%N.

(** [C{lo,hi}] followed by the continuation [k]: between [lo] and [hi]
    characters of the class are consumed, every split being tried. *)
Fixpoint rep (c : ascii -> bool) (k : string -> bool) (lo hi : nat) (s : string) : bool :=
  match hi with
  | O => Nat.eqb lo 0 && k s
  | S hi' =>
      match s with
      | String a s' => (c a && rep c k (Nat.pred lo) hi' s') || (Nat.eqb lo 0 && k s)
      | EmptyString => Nat.eqb lo 0 && k s
      end
  end.

(** every character of [s] is in the class *)
Fixpoint all_in (c : ascii -> bool) (s : string) : bool :=
  match s with
  | EmptyString => true
  | String a s' => c a && all_in c s'
  end.

Definition at_end (s : string) : bool :=
  match s with EmptyString => true | String _ _ => false end.

(** the whole text against [^p1 p2 ... pn$] *)
Definition fullmatch (p : list piece) (s : string) : bool :=
  fold_right (fun x k => rep (cls x) k (lo x) (hi x)) at_end p s.

End re.

(** ** models/student.py *)

Module student.
Import course.

(** [UNIType]: the pattern [^[a-z]{2,3}\d{1,4}$]. *)
Definition UNIType_pattern : list re.piece :=
  [ {| re.cls := re.lower_az; re.lo := 2; re.hi := 3 |};
    {| re.cls := re.digit; re.lo := 1; re.hi := 4 |} ].

Definition UNIType_ok (s : string) : bool := re.fullmatch UNIType_pattern s.

Record StudentBase := {
  uni : string;
  first_name : string;
  last_name : string;
  major : string;
  grade : string;
  email : string;
  phone : option string;
  birth_date : option date;
  courses : list CourseBase
}.

(** [StudentCreate(StudentBase)] adds no field. *)
Definition StudentCreate := StudentBase.

(** [StudentUpdate]: as for [CourseUpdate], the outer option is membership
    in [model_fields_set] and the inner one the value. *)
Record StudentUpdate := {
  u_uni : option (option string);
  u_first_name : option (option string);
  u_last_name : option (option string);
  u_major : option (option string);
  u_grade : option (option string);
  u_email : option (option string);
  u_phone : option (option string);
  u_birth_date : option (option date);
  u_courses : option (option (list CourseBase))
}.

(** [StudentRead(StudentBase)] adds [id], [created_at] and [updated_at]. *)
Record StudentRead := {
  base :> StudentBase;
  id : UUID;
  created_at : datetime;
  updated_at : datetime
}.

Definition dump_courses (l : list CourseBase) : value :=
  DictList (map CourseBase_model_dump l).

Definition of_opt_courses (x : option (list CourseBase)) : value :=
  match x with
  | Some l => dump_courses l
  | None => Atom SNone
  end.

Definition atom_of (v : value) : option scalar :=
  match v with
  | Atom x => Some x
  | DictList _ => None
  end.

(** [s.model_dump()] for a [StudentBase] (and so a [StudentCreate]). *)
Definition StudentBase_model_dump (s : StudentBase) : gmap string value :=
  <["uni" := Atom (SStr (uni s))]>
  (<["first_name" := Atom (SStr (first_name s))]>
  (<["last_name" := Atom (SStr (last_name s))]>
  (<["major" := Atom (SStr (major s))]>
  (<["grade" := Atom (SStr (grade s))]>
  (<["email" := Atom (SStr (email s))]>
  (<["phone" := Atom (of_opt SStr (phone s))]>
  (<["birth_date" := Atom (of_opt SDate (birth_date s))]>
  (<["courses" := dump_courses (courses s)]> ∅)))))))).

(** [s.model_dump()] for a [StudentRead]. *)
Definition StudentRead_model_dump (s : StudentRead) : gmap string value :=
  <["id" := Atom (SUUID (id s))]>
  (<["created_at" := Atom (SDatetime (created_at s))]>
  (<["updated_at" := Atom (SDatetime (updated_at s))]>
  (StudentBase_model_dump s))).

(** [u.model_dump(exclude_unset=True)]. A course nested in [courses] is
    dumped here with all its fields; pydantic leaves out of a nested dump
    the optional fields that were never set, and the constructor reads a
    missing [section] or [enrollment] back as [None], the value dumped
    here. *)
Definition StudentUpdate_model_dump_exclude_unset (u : StudentUpdate) : gmap string value :=
  dump_set "uni" (Atom ∘ of_opt SStr <$> u_uni u)
  (dump_set "first_name" (Atom ∘ of_opt SStr <$> u_first_name u)
  (dump_set "last_name" (Atom ∘ of_opt SStr <$> u_last_name u)
  (dump_set "major" (Atom ∘ of_opt SStr <$> u_major u)
  (dump_set "grade" (Atom ∘ of_opt SStr <$> u_grade u)
  (dump_set "email" (Atom ∘ of_opt SStr <$> u_email u)
  (dump_set "phone" (Atom ∘ of_opt SStr <$> u_phone u)
  (dump_set "birth_date" (Atom ∘ of_opt SDate <$> u_birth_date u)
  (dump_set "courses" (of_opt_courses <$> u_courses u) ∅)))))))).

Section validation.
(** [EmailStr] is checked by the [email-validator] package, which is not
    part of this repository: its verdict on a string is a parameter.
    [EmailStr_ok s] stands for "the package accepts [s] and hands it back
    as it is". The package can also accept an address and hand back a
    rewritten, normalised one; the payloads and the records that reach the
    handlers have been through it already, so their addresses are of the
    first kind, and an address of the second kind is outside the
    embedding. *)
Context (EmailStr_ok : string -> bool).

(** a field of type [UNIType] *)
Definition req_uni (d : gmap string value) (k : string) : option string :=
  s ← req_str atom_of d k;
  if UNIType_ok s then Some s else None.

(** a field of type [EmailStr] *)
Definition req_email (d : gmap string value) (k : string) : option string :=
  s ← req_str atom_of d k;
  if EmailStr_ok s then Some s else None.

(** [courses: List[CourseBase]] with [default_factory=list] *)
Definition list_courses_field (d : gmap string value) (k : string) : option (list CourseBase) :=
  match d !! k with
  | None => Some []
  | Some (DictList l) => mapM (CourseBase_init Some) l
  | Some (Atom _) => None
  end.

(** [StudentBase] built from keyword arguments [d] *)
Definition StudentBase_init (d : gmap string value) : option StudentBase :=
  un ← req_uni d "uni";
  fn ← req_str atom_of d "first_name";
  ln ← req_str atom_of d "last_name";
  ma ← req_str atom_of d "major";
  gr ← req_str atom_of d "grade";
  em ← req_email d "email";
  ph ← opt_str atom_of d "phone";
  bd ← opt_date atom_of d "birth_date";
  cs ← list_courses_field d "courses";
  Some {| uni := un; first_name := fn; last_name := ln; major := ma;
          grade := gr; email := em; phone := ph; birth_date := bd;
          courses := cs |}.

(** [StudentRead] built from keyword arguments [d] *)
Definition StudentRead_init (d : gmap string value) : option StudentRead :=
  b ← StudentBase_init d;
  i ← req_uuid atom_of d "id";
  ca ← req_datetime atom_of d "created_at";
  ua ← req_datetime atom_of d "updated_at";
  Some {| base := b; id := i; created_at := ca; updated_at := ua |}.

(** One field of [StudentUpdate], of type [Optional[T]] with default
    [None]: a key that is missing leaves the field unset, [None] is
    accepted, and any other value must validate as [T]. *)
Definition upd_field {A} (parse : value -> option A) (d : gmap string value) (k : string)
    : option (option (option A)) :=
  match d !! k with
  | None => Some None
  | Some (Atom SNone) => Some (Some None)
  | Some v => x ← parse v; Some (Some (Some x))
  end.

Definition parse_str (v : value) : option string :=
  match v with Atom (SStr s) => Some s | _ => None end.

Definition parse_uni (v : value) : option string :=
  s ← parse_str v; if UNIType_ok s then Some s else None.

Definition parse_email (v : value) : option string :=
  s ← parse_str v; if EmailStr_ok s then Some s else None.

Definition parse_date (v : value) : option date :=
  match v with Atom (SDate x) => Some x | _ => None end.

Definition parse_courses (v : value) : option (list CourseBase) :=
  match v with DictList l => mapM (CourseBase_init Some) l | Atom _ => None end.

(** [StudentUpdate] built from the keyword arguments [d] *)
Definition StudentUpdate_init (d : gmap string value) : option StudentUpdate :=
  un ← upd_field parse_uni d "uni";
  fn ← upd_field parse_str d "first_name";
  ln ← upd_field parse_str d "last_name";
  ma ← upd_field parse_str d "major";
  gr ← upd_field parse_str d "grade";
  em ← upd_field parse_email d "email";
  ph ← upd_field parse_str d "phone";
  bd ← upd_field parse_date d "birth_date";
  cs ← upd_field parse_courses d "courses";
  Some {| u_uni := un; u_first_name := fn; u_last_name := ln; u_major := ma;
          u_grade := gr; u_email := em; u_phone := ph; u_birth_date := bd;
          u_courses := cs |}.

(** [StudentCreate] built from the keyword arguments [d]: the fields and
    validators of [StudentBase]. *)
Definition StudentCreate_init (d : gmap string value) : option StudentCreate :=
  StudentBase_init d.

End validation.
End student.

(** ** main.py *)

Module main.
Import course student.

(** The two module globals, [students] and [courses]. *)
Record State := {
  students : odict UUID StudentRead;
  courses : odict UUID CourseRead
}.

Definition set_courses (d : odict UUID CourseRead) (st : State) : State :=
  {| students := students st; courses := d |}.

Definition set_students (d : odict UUID StudentRead) (st : State) : State :=
  {| students := d; courses := courses st |}.

(** [d[k]] *)
Definition getitem {V} (k : UUID) (d : odict UUID V) : outcome V :=
  match oget k d with
  | Some v => Return v
  | None => Raise KeyError
  end.

(** One filter of a list endpoint:
    [if param is not None: results = [x for x in results if cond]]. *)
Definition step {A} (param : option string) (cond : string -> A -> outcome bool)
    (results : list A) : outcome (list A) :=
  match param with
  | None => Return results
  | Some q => comprehension (cond q) results
  end.

(** The statements of a list endpoint, one after the other. *)
Fixpoint run {A} (steps : list (list A -> outcome (list A))) (results : list A) : outcome (list A) :=
  match steps with
  | [] => Return results
  | f :: steps' => bind (f results) (run steps')
  end.

(** The errors the handlers signal on purpose: [HTTPException] with status
    400 is the Conflict error, with status 404 the NotFound error. *)
Definition is_conflict {A} (o : outcome A) : bool :=
  match o with
  | Raise (HTTPException 400 _) => true
  | _ => false
  end.

Definition is_not_found {A} (o : outcome A) : bool :=
  match o with
  | Raise (HTTPException 404 _) => true
  | _ => false
  end.

(** *** Courses endpoints *)

Definition create_course (new_id : UUID) (now : datetime) (c : CourseCreate) (st : State)
    : outcome CourseRead * State :=
  if omem new_id (courses st) then
    (Raise (HTTPException 400 "Course with this ID already exists"), st)
  else
    match CourseRead_init
            (<["id" := SUUID new_id]>
             (<["created_at" := SDatetime now]>
              (<["updated_at" := SDatetime now]> (CourseBase_model_dump c)))) with
    | None => (Raise ValidationError, st)
    | Some r =>
        let st' := set_courses (oset new_id r (courses st)) st in
        (getitem new_id (courses st'), st')
    end.

(** The conditions of [list_courses], in the order of the source. *)
Definition course_department_code (q : string) (c : CourseRead) : outcome bool :=
  Return (pystr.eqb (pystr.lower (department_code c)) (pystr.lower q)).

(** [c.course_id == course_code]: [CourseRead] has no field [course_id]. *)
Definition course_course_code (q : string) (c : CourseRead) : outcome bool :=
  match CourseRead_getattr c "course_id" with
  | None => Raise AttributeError
  | Some v => Return (bool_decide (v = SStr q))
  end.

Definition course_title (q : string) (c : CourseRead) : outcome bool :=
  Return (pystr.contains (pystr.lower q) (pystr.lower (title c))).

Definition course_instructor (q : string) (c : CourseRead) : outcome bool :=
  Return (pystr.contains (pystr.lower q) (pystr.lower (instructor c))).

Definition course_days (q : string) (c : CourseRead) : outcome bool :=
  Return (pystr.contains (pystr.lower q) (pystr.lower (days c))).

Definition course_start_time (q : string) (c : CourseRead) : outcome bool :=
  Return (pystr.eqb (pystr.lower (start_time c)) (pystr.lower q)).

Definition course_end_time (q : string) (c : CourseRead) : outcome bool :=
  Return (pystr.eqb (pystr.lower (end_time c)) (pystr.lower q)).

Definition list_courses_steps
    (department_code course_code title instructor days start_time end_time : option string)
    : list (list CourseRead -> outcome (list CourseRead)) :=
  [ step department_code course_department_code;
    step course_code course_course_code;
    step title course_title;
    step instructor course_instructor;
    step days course_days;
    step start_time course_start_time;
    step end_time course_end_time ].

Definition list_courses
    (department_code course_code title instructor days start_time end_time : option string)
    (st : State) : outcome (list CourseRead) :=
  run (list_courses_steps department_code course_code title instructor days
         start_time end_time)
      (ovalues (courses st)).

Definition get_course (course_id : UUID) (st : State) : outcome CourseRead :=
  if negb (omem course_id (courses st)) then
    Raise (HTTPException 404 "Course not found")
  else getitem course_id (courses st).

(** The dictionary [stored] of [update_course], after its three statements:
    the dump of the stored record, updated with the fields set in the
    payload, then with [updated_at]. *)
Definition course_stored (now : datetime) (old : CourseRead) (update : CourseUpdate)
    : gmap string scalar :=
  let stored := CourseRead_model_dump old in
  let stored := dict_update stored (CourseUpdate_model_dump_exclude_unset update) in
  <["updated_at" := SDatetime now]> stored.

Definition update_course (now : datetime) (course_id : UUID) (update : CourseUpdate)
    (st : State) : outcome CourseRead * State :=
  if negb (omem course_id (courses st)) then
    (Raise (HTTPException 404 "Course not found"), st)
  else
    match getitem course_id (courses st) with
    | Raise e => (Raise e, st)
    | Return old =>
        match CourseRead_init (course_stored now old update) with
        | None => (Raise ValidationError, st)
        | Some r =>
            let st' := set_courses (oset course_id r (courses st)) st in
            (getitem course_id (courses st'), st')
        end
    end.

Definition delete_course (course_id : UUID) (st : State) : outcome CourseRead * State :=
  if negb (omem course_id (courses st)) then
    (Raise (HTTPException 404 "Course not found"), st)
  else
    match getitem course_id (courses st) with
    | Raise e => (Raise e, st)
    | Return course_to_delete =>
        (Return course_to_delete, set_courses (odel course_id (courses st)) st)
    end.

(** *** Student endpoints *)

(** [obj[key] = value] where [obj] is a [StudentRead]: a pydantic model has
    no item assignment. *)
Definition StudentRead_setitem (obj : StudentRead) (key : UUID) (v : StudentRead)
    : outcome unit :=
  Raise TypeError.

(** [obj[key]] where [obj] is a [UUID]: a [UUID] has no subscript. *)
Definition UUID_getitem (obj : UUID) (key : UUID) : outcome StudentRead :=
  Raise TypeError.

(** The dictionary [stored] of [update_person], after its three statements. *)
Definition student_stored (now : datetime) (old : StudentRead) (update : StudentUpdate)
    : gmap string value :=
  let stored := StudentRead_model_dump old in
  let stored := dict_update stored (StudentUpdate_model_dump_exclude_unset update) in
  <["updated_at" := Atom (SDatetime now)]> stored.

Section students.
Context (EmailStr_ok : string -> bool).

Definition create_student (new_id : UUID) (now : datetime) (s : StudentCreate) (st : State)
    : outcome StudentRead * State :=
  if omem new_id (courses st) then
    (Raise (HTTPException 400 "Student with this ID already exists"), st)
  else
    match StudentRead_init EmailStr_ok
            (<["id" := Atom (SUUID new_id)]>
             (<["created_at" := Atom (SDatetime now)]>
              (<["updated_at" := Atom (SDatetime now)]> (StudentBase_model_dump s)))) with
    | None => (Raise ValidationError, st)
    | Some student_read =>
        match StudentRead_setitem student_read new_id student_read with
        | Raise e => (Raise e, st)
        | Return _ => (Return student_read, st)
        end
    end.

Definition get_person (student_id : UUID) (st : State) : outcome StudentRead :=
  if negb (omem student_id (students st)) then
    Raise (HTTPException 404 "Student not found")
  else UUID_getitem student_id student_id.

Definition update_person (now : datetime) (student_id : UUID) (update : StudentUpdate)
    (st : State) : outcome StudentRead * State :=
  if negb (omem student_id (students st)) then
    (Raise (HTTPException 404 "Student not found"), st)
  else
    match getitem student_id (students st) with
    | Raise e => (Raise e, st)
    | Return old =>
        match StudentRead_init EmailStr_ok (student_stored now old update) with
        | None => (Raise ValidationError, st)
        | Some r =>
            let st' := set_students (oset student_id r (students st)) st in
            (getitem student_id (students st'), st')
        end
    end.

End students.

Definition delete_person (student_id : UUID) (st : State) : outcome StudentRead * State :=
  if negb (omem student_id (students st)) then
    (Raise (HTTPException 404 "Student not found"), st)
  else
    match getitem student_id (students st) with
    | Raise e => (Raise e, st)
    | Return student_to_delete =>
        (Return student_to_delete, set_students (odel student_id (students st)) st)
    end.

(** The conditions of [list_students], in the order of the source. *)
Definition student_uni (q : string) (s : StudentRead) : outcome bool :=
  Return (pystr.eqb (pystr.lower (uni s)) (pystr.lower q)).

Definition student_first_name (q : string) (s : StudentRead) : outcome bool :=
  Return (pystr.eqb (pystr.lower (first_name s)) (pystr.lower q)).

Definition student_last_name (q : string) (s : StudentRead) : outcome bool :=
  Return (pystr.eqb (pystr.lower (last_name s)) (pystr.lower q)).

Definition student_major (q : string) (s : StudentRead) : outcome bool :=
  Return (pystr.eqb (pystr.lower (major s)) (pystr.lower q)).

Definition student_grade (q : string) (s : StudentRead) : outcome bool :=
  Return (pystr.eqb (pystr.lower (grade s)) (pystr.lower q)).

Definition student_email (q : string) (s : StudentRead) : outcome bool :=
  Return (pystr.eqb (email s) q).

(** [s.phone == phone]: [None] equals no string. *)
Definition student_phone (q : string) (s : StudentRead) : outcome bool :=
  Return (bool_decide (phone s = Some q)).

Definition student_birth_date (q : string) (s : StudentRead) : outcome bool :=
  Return (pystr.eqb (opt_date_str (birth_date s)) q).

Definition student_department_code (q : string) (s : StudentRead) : outcome bool :=
  Return (existsb (fun c => pystr.eqb (pystr.lower (department_code c)) (pystr.lower q))
            (student.courses s)).

(** [any(... for course in p.courses)]: the iterable of the generator is
    evaluated when the generator is made, once for each student [s] that
    the comprehension visits, and the name [p] is bound neither in
    [list_students] nor in the module. *)
Definition student_instructor (q : string) (s : StudentRead) : outcome bool :=
  Raise NameError.

Definition list_students_steps
    (uni first_name last_name major grade email phone birth_date
     department_code instructor : option string)
    : list (list StudentRead -> outcome (list StudentRead)) :=
  [ step uni student_uni;
    step first_name student_first_name;
    step last_name student_last_name;
    step major student_major;
    step grade student_grade;
    step email student_email;
    step phone student_phone;
    step birth_date student_birth_date;
    step department_code student_department_code;
    step instructor student_instructor ].

Definition list_students
    (uni first_name last_name major grade email phone birth_date
     department_code instructor : option string)
    (st : State) : outcome (list StudentRead) :=
  run (list_students_steps uni first_name last_name major grade email phone
         birth_date department_code instructor)
      (ovalues (students st)).

End main.

(** ** The conditions of the list endpoints as predicates

    What the filters of a list endpoint compute when none of them raises:
    each condition is a boolean predicate on the record, [true] when its
    parameter is not supplied. *)

Module conditions.
Import course student main.

(** A filter whose condition cannot raise. *)
Definition pure_step {A} (p : A → bool) (results : list A) : outcome (list A) :=
  Return (List.filter p results).

(** The conditions of [list_courses] other than the one on [course_code],
    as boolean predicates. *)
Definition course_conditions (dc ti ins da s e : option string) : list (CourseRead → bool) :=
  [ (λ c : CourseRead, match dc with Some q => pystr.eqb (pystr.lower (department_code c)) (pystr.lower q) | None => true end);
    (λ c : CourseRead, match ti with Some q => pystr.contains (pystr.lower q) (pystr.lower (title c)) | None => true end);
    (λ c : CourseRead, match ins with Some q => pystr.contains (pystr.lower q) (pystr.lower (instructor c)) | None => true end);
    (λ c : CourseRead, match da with Some q => pystr.contains (pystr.lower q) (pystr.lower (days c)) | None => true end);
    (λ c : CourseRead, match s with Some q => pystr.eqb (pystr.lower (start_time c)) (pystr.lower q) | None => true end);
    (λ c : CourseRead, match e with Some q => pystr.eqb (pystr.lower (end_time c)) (pystr.lower q) | None => true end) ].

(** The conditions of [list_students] other than the one on [instructor],
    as boolean predicates. *)
Definition student_conditions (un fn ln ma gr em ph bd dc : option string)
    : list (StudentRead → bool) :=
  [ (λ s : StudentRead, match un with Some q => pystr.eqb (pystr.lower (uni s)) (pystr.lower q) | None => true end);
    (λ s : StudentRead, match fn with Some q => pystr.eqb (pystr.lower (first_name s)) (pystr.lower q) | None => true end);
    (λ s : StudentRead, match ln with Some q => pystr.eqb (pystr.lower (last_name s)) (pystr.lower q) | None => true end);
    (λ s : StudentRead, match ma with Some q => pystr.eqb (pystr.lower (major s)) (pystr.lower q) | None => true end);
    (λ s : StudentRead, match gr with Some q => pystr.eqb (pystr.lower (grade s)) (pystr.lower q) | None => true end);
    (λ s : StudentRead, match em with Some q => pystr.eqb (email s) q | None => true end);
    (λ s : StudentRead, match ph with Some q => bool_decide (phone s = Some q) | None => true end);
    (λ s : StudentRead, match bd with Some q => pystr.eqb (opt_date_str (birth_date s)) q | None => true end);
    (λ s : StudentRead, match dc with
       | Some q => existsb (λ c, pystr.eqb (pystr.lower (department_code c)) (pystr.lower q))
                     (student.courses s)
       | None => true
       end) ].

(** The nested condition the specification gives for [instructor]: at least
    one of the student's own courses has that instructor, case ignored. *)
Definition has_instructor (q : string) (s : StudentRead) : bool :=
  existsb (λ c, pystr.eqb (pystr.lower (instructor c)) (pystr.lower q))
    (student.courses s).

End conditions.

(** ** The partial update, field by field

    The reading of "merge the fields present in the payload over the stored
    record" that the update handlers are compared with: a field that the
    payload does not set keeps the stored value, a field that it sets takes
    the payload's value, and a required field set to null, a [uni] off the
    pattern or an [email] that [EmailStr] refuses fails the validation of
    the Read record. *)

Module overlay.
Import course student.

(** a required field: the stored value, or the payload's *)
Definition pick_req {T} (x : option (option T)) (old : T) : option T :=
  match x with
  | None => Some old
  | Some v => v
  end.

(** an [Optional] field: the stored value, or the payload's, null included *)
Definition pick_opt {T} (x : option (option T)) (old : option T) : option T :=
  match x with
  | None => old
  | Some v => v
  end.

Definition checked (ok : string → bool) (x : option string) : option string :=
  s ← x; if ok s then Some s else None.

Definition CourseBase_overlay (u : CourseUpdate) (old : CourseBase) : option CourseBase :=
  dc ← pick_req (u_department_code u) (department_code old);
  cc ← pick_req (u_course_code u) (course_code old);
  ti ← pick_req (u_title u) (title old);
  ins ← pick_req (u_instructor u) (instructor old);
  da ← pick_req (u_days u) (days old);
  st ← pick_req (u_start_time u) (start_time old);
  en ← pick_req (u_end_time u) (end_time old);
  lo ← pick_req (u_location u) (location old);
  sz ← pick_req (u_size u) (size old);
  cr ← pick_req (u_credit u) (credit old);
  Some {| department_code := dc; course_code := cc; title := ti;
          instructor := ins; days := da; start_time := st; end_time := en;
          location := lo; size := sz; credit := cr;
          section := pick_opt (u_section u) (section old);
          enrollment := pick_opt (u_enrollment u) (enrollment old) |}.

Definition StudentBase_overlay (EmailStr_ok : string → bool) (u : StudentUpdate)
    (old : StudentBase) : option StudentBase :=
  un ← checked UNIType_ok (pick_req (u_uni u) (uni old));
  fn ← pick_req (u_first_name u) (first_name old);
  ln ← pick_req (u_last_name u) (last_name old);
  ma ← pick_req (u_major u) (major old);
  gr ← pick_req (u_grade u) (grade old);
  em ← checked EmailStr_ok (pick_req (u_email u) (email old));
  cs ← pick_req (u_courses u) (student.courses old);
  Some {| uni := un; first_name := fn; last_name := ln; major := ma;
          grade := gr; email := em;
          phone := pick_opt (u_phone u) (phone old);
          birth_date := pick_opt (u_birth_date u) (birth_date old);
          student.courses := cs |}.

(** What the specification says of one field of the new record. *)
Definition takes_req {T} (x : option (option T)) (old new : T) : Prop :=
  match x with
  | None => new = old
  | Some v => v = Some new
  end.

Definition takes_opt {T} (x : option (option T)) (old new : option T) : Prop :=
  match x with
  | None => new = old
  | Some v => new = v
  end.

Definition CourseUpdate_applied (u : CourseUpdate) (old new : CourseBase) : Prop :=
  takes_req (u_department_code u) (department_code old) (department_code new) ∧
  takes_req (u_course_code u) (course_code old) (course_code new) ∧
  takes_req (u_title u) (title old) (title new) ∧
  takes_req (u_instructor u) (instructor old) (instructor new) ∧
  takes_req (u_days u) (days old) (days new) ∧
  takes_req (u_start_time u) (start_time old) (start_time new) ∧
  takes_req (u_end_time u) (end_time old) (end_time new) ∧
  takes_req (u_location u) (location old) (location new) ∧
  takes_req (u_size u) (size old) (size new) ∧
  takes_req (u_credit u) (credit old) (credit new) ∧
  takes_opt (u_section u) (section old) (section new) ∧
  takes_opt (u_enrollment u) (enrollment old) (enrollment new).

Definition StudentUpdate_applied (u : StudentUpdate) (old new : StudentBase) : Prop :=
  takes_req (u_uni u) (uni old) (uni new) ∧
  takes_req (u_first_name u) (first_name old) (first_name new) ∧
  takes_req (u_last_name u) (last_name old) (last_name new) ∧
  takes_req (u_major u) (major old) (major new) ∧
  takes_req (u_grade u) (grade old) (grade new) ∧
  takes_req (u_email u) (email old) (email new) ∧
  takes_opt (u_phone u) (phone old) (phone new) ∧
  takes_opt (u_birth_date u) (birth_date old) (birth_date new) ∧
  takes_req (u_courses u) (student.courses old) (student.courses new).

End overlay.

(** ** Data of the examples *)

Module examples.
Import course student main.

(** The course of the example scenario. *)
Definition cloud_computing : CourseCreate :=
  {| department_code := "COMS"; course_code := "4153";
     title := "Cloud Computing"; instructor := "Donald Ferguson";
     days := "F"; start_time := "1:10PM"; end_time := "3:45PM";
     location := "501 NORTHWEST CORNER"; size := 100; credit := 3;
     section := None; enrollment := None |}.

(** The student of the examples of [models/student.py]. *)
Definition ada : StudentCreate :=
  {| uni := "abc1234"; first_name := "Ada"; last_name := "Lovelace";
     major := "Computer Science"; grade := "Senior";
     email := "ada@example.com"; phone := Some "+1-212-555-0199";
     birth_date := Some (mkdate 1815 12 10);
     student.courses := [cloud_computing] |}.

Definition empty : State := {| students := []; courses := [] |}.

Definition cloud_computing_read (i : UUID) (t : datetime) : CourseRead :=
  {| course.base := cloud_computing; course.id := i;
     course.created_at := t; course.updated_at := t |}.

Definition ada_read (i : UUID) (t : datetime) : StudentRead :=
  {| student.base := ada; student.id := i;
     student.created_at := t; student.updated_at := t |}.

(** a store holding the one course, under identifier [7] *)
Definition one_course : State :=
  {| students := []; courses := [(7%N, cloud_computing_read 7%N 1000)] |}.

(** a store holding the one student, under identifier [7] *)
Definition one_student : State :=
  {| students := [(7%N, ada_read 7%N 1000)]; courses := [] |}.

(** the second example of [CourseUpdate]: only [days] is set *)
Definition days_mw : CourseUpdate :=
  {| u_department_code := None; u_course_code := None; u_title := None;
     u_instructor := None; u_days := Some (Some "MW"); u_start_time := None;
     u_end_time := None; u_location := None; u_size := None; u_credit := None;
     u_section := None; u_enrollment := None |}.

(** the first example of [StudentUpdate], with the phone set to null *)
Definition ada_byron : StudentUpdate :=
  {| u_uni := None; u_first_name := Some (Some "Ada");
     u_last_name := Some (Some "Byron"); u_major := None; u_grade := None;
     u_email := None; u_phone := Some None; u_birth_date := None;
     u_courses := None |}.

(** an [EmailStr] check that accepts what has an [@] in it *)
Definition has_at (s : string) : bool := pystr.contains "@" s.

End examples.

(** ** The service as a sequence of requests

    The requests that write to the stores, each with the identifier and
    the time that the server draws while it handles the request. The read
    endpoints ([list_courses], [get_course], [list_students],
    [get_person]) leave the stores alone. *)

Module server.
Import course student main.

Inductive request :=
| PostCourse (new_id : UUID) (now : datetime) (c : CourseCreate)
| PatchCourse (now : datetime) (course_id : UUID) (update : CourseUpdate)
| DeleteCourse (course_id : UUID)
| PostStudent (new_id : UUID) (now : datetime) (s : StudentCreate)
| PatchStudent (now : datetime) (student_id : UUID) (update : StudentUpdate)
| DeleteStudent (student_id : UUID).

(** The stores after one request, whether the handler returns or raises. *)
Definition serve (EmailStr_ok : string → bool) (r : request) (st : State) : State :=
  match r with
  | PostCourse i t c => (create_course i t c st).2
  | PatchCourse t i u => (update_course t i u st).2
  | DeleteCourse i => (delete_course i st).2
  | PostStudent i t s => (create_student EmailStr_ok i t s st).2
  | PatchStudent t i u => (update_person EmailStr_ok t i u st).2
  | DeleteStudent i => (delete_person i st).2
  end.

(** The stores after the requests [rs], served one after the other. *)
Definition serve_all (EmailStr_ok : string → bool) (rs : list request) (st : State) : State :=
  fold_left (λ st r, serve EmailStr_ok r st) rs st.

(** The stores when the process starts: both dictionaries are empty. *)
Definition initial : State := {| students := []; courses := [] |}.

(** Every record of [courses] has its key as [id]. *)
Definition keyed_by_id (st : State) : Prop :=
  ∀ k r, oget k (courses st) = Some r → course.id r = k.

(** A payload that sets one of the ten required fields of a course to
    null. *)
Definition nulls_required (u : CourseUpdate) : bool :=
  bool_decide (u_department_code u = Some None) ||
  bool_decide (u_course_code u = Some None) ||
  bool_decide (u_title u = Some None) ||
  bool_decide (u_instructor u = Some None) ||
  bool_decide (u_days u = Some None) ||
  bool_decide (u_start_time u = Some None) ||
  bool_decide (u_end_time u = Some None) ||
  bool_decide (u_location u = Some None) ||
  bool_decide (u_size u = Some None) ||
  bool_decide (u_credit u = Some None).

(** The empty payload [{}]: no field is set. *)
Definition no_field : CourseUpdate :=
  {| u_department_code := None; u_course_code := None; u_title := None;
     u_instructor := None; u_days := None; u_start_time := None;
     u_end_time := None; u_location := None; u_size := None; u_credit := None;
     u_section := None; u_enrollment := None |}.

(** A date that [datetime.date] can hold has a year of at most four digits
    and a month and a day of at most two. *)
Definition date_in_range (d : date) : Prop :=
  (year d < 10000 ∧ month d < 100 ∧ day d < 100)%N.

(** The time that the clock shows while a request is handled, which is
    what [datetime.utcnow()] returns if the handler gets to call it; the
    [delete] handlers never read the clock. *)
Definition stamp (r : request) : option datetime :=
  match r with
  | PostCourse _ t _ | PatchCourse t _ _ | PostStudent _ t _ | PatchStudent t _ _ => Some t
  | DeleteCourse _ | DeleteStudent _ => None
  end.

(** The clock does not run backwards over the requests [rs]: the times read
    are in non-decreasing order and none is before [t0]. *)
Fixpoint clock_monotone (t0 : datetime) (rs : list request) : Prop :=
  match rs with
  | [] => True
  | r :: rs' =>
      match stamp r with
      | Some t => (t0 ≤ t)%Z ∧ clock_monotone t rs'
      | None => clock_monotone t0 rs'
      end
  end.

(** The timestamps of every stored course are in order and not after the
    last time read. *)
Definition stamped_until (t : datetime) (st : State) : Prop :=
  ∀ k r, oget k (courses st) = Some r →
         (course.created_at r ≤ course.updated_at r ∧ course.updated_at r ≤ t)%Z.

(** The parameters of [list_courses] that are compared in lower case. *)
Definition lower_param (q : option string) : option string :=
  pystr.lower <$> q.

End server.

(** * Properties *)

(** ** Insertion-ordered dictionaries *)

Section odict_facts.
Context {K V : Type} `{EqDecision K}.
Implicit Types (k : K) (v : V) (d : odict K V).

Lemma oget_oset_eq k v d : oget k (oset k v d) = Some v.
Proof.
  induction d as [|[k' v'] d IH]; simpl.
  - case_decide; congruence.
  - destruct (decide (k' = k)) as [->|Hne]; simpl.
    + case_decide; congruence.
    + case_decide; [congruence | exact IH].
Qed.

Lemma oget_oset_ne k k' v d : k ≠ k' → oget k' (oset k v d) = oget k' d.
Proof.
  intros Hne. induction d as [|[k0 v0] d IH]; simpl.
  - case_decide; congruence.
  - destruct (decide (k0 = k)) as [->|Hk]; simpl.
    + repeat case_decide; congruence.
    + rewrite IH. reflexivity.
Qed.

Lemma oget_odel_eq k d : oget k (odel k d) = None.
Proof.
  induction d as [|[k' v'] d IH]; simpl; [reflexivity|].
  destruct (decide (k' = k)); simpl; [exact IH|].
  case_decide; [congruence | exact IH].
Qed.

Lemma oget_odel_ne k k' d : k ≠ k' → oget k' (odel k d) = oget k' d.
Proof.
  intros Hne. induction d as [|[k0 v0] d IH]; simpl; [reflexivity|].
  destruct (decide (k0 = k)) as [->|Hk]; simpl.
  - case_decide; [congruence | exact IH].
  - rewrite IH. reflexivity.
Qed.

Lemma omem_true k d : omem k d = true ↔ is_Some (oget k d).
Proof.
  unfold omem. destruct (oget k d) as [v|].
  - split; [eauto | reflexivity].
  - split; [discriminate | intros [? Hx]; discriminate].
Qed.

Lemma omem_false k d : omem k d = false ↔ oget k d = None.
Proof. unfold omem. destruct (oget k d); split; intros Hx; done. Qed.

(** A key that is not in the dictionary is appended: the values keep their
    order and the new one comes last. *)
Lemma ovalues_oset_fresh k v d :
  oget k d = None → ovalues (oset k v d) = (ovalues d ++ [v])%list.
Proof.
  unfold ovalues. induction d as [|[k' v'] d IH]; simpl; [reflexivity|].
  destruct (decide (k' = k)); [discriminate|].
  intros Hd. simpl. rewrite IH by exact Hd. reflexivity.
Qed.

(** The keys stay pairwise distinct. *)
Lemma okeys_oset_NoDup k v d : NoDup (okeys d) → NoDup (okeys (oset k v d)).
Proof.
  unfold okeys. induction d as [|[k' v'] d IH]; simpl; intros Hnd.
  - repeat constructor. intros Hin. inversion Hin.
  - apply NoDup_cons in Hnd as [Hk' Hnd].
    destruct (decide (k' = k)) as [->|Hne]; simpl.
    + apply NoDup_cons. split; assumption.
    + apply NoDup_cons. split; [|apply IH, Hnd].
      intros Hin. apply Hk'. clear IH Hk' Hnd.
      induction d as [|[k0 v0] d IHd]; simpl in *.
      * apply list_elem_of_singleton in Hin. congruence.
      * destruct (decide (k0 = k)); simpl in *.
        -- apply elem_of_cons in Hin as [->|Hin]; [congruence|].
           apply elem_of_cons. right. exact Hin.
        -- apply elem_of_cons in Hin as [->|Hin]; apply elem_of_cons; auto.
Qed.

End odict_facts.

(** ** Comprehensions and filter pipelines *)

Section pipeline_facts.
Context {A : Type}.
Implicit Types (l : list A) (p : A → bool).

(** A condition that never raises makes the comprehension a filter. *)
Lemma comprehension_pure p l :
  comprehension (λ x, Return (p x)) l = Return (List.filter p l).
Proof.
  induction l as [|x l IH]; simpl; [reflexivity|].
  rewrite IH. reflexivity.
Qed.

(** A condition that always raises: the comprehension raises as soon as
    there is an element to visit. *)
Lemma comprehension_raise (e : exn) (c : A → outcome bool) l :
  (∀ x, c x = Raise e) →
  comprehension c l = match l with [] => Return [] | _ :: _ => Raise e end.
Proof.
  intros Hc. destruct l as [|x l]; simpl; [reflexivity|].
  rewrite Hc. reflexivity.
Qed.

Lemma run_app (steps steps' : list (list A → outcome (list A))) l :
  main.run (steps ++ steps') l = bind (main.run steps l) (main.run steps').
Proof.
  revert l. induction steps as [|f steps IH]; intros l; simpl; [reflexivity|].
  destruct (f l) as [r|e]; simpl; [apply IH | reflexivity].
Qed.

Lemma run_nil_results (steps : list (list A → outcome (list A))) :
  Forall (λ f, f [] = Return []) steps → main.run steps [] = Return [].
Proof.
  induction 1 as [|f steps Hf _ IH]; simpl; [reflexivity|].
  rewrite Hf. simpl. exact IH.
Qed.

End pipeline_facts.

(** ** Creation *)

Section create_facts.
Import course student main.

(** Dumping a [CourseCreate] and building the [CourseRead] from the dump and
    the three server-side fields gives back the payload's fields. *)
Lemma CourseRead_init_create (c : CourseCreate) (i : UUID) (t : datetime) :
  CourseRead_init
    (<["id" := SUUID i]>
     (<["created_at" := SDatetime t]>
      (<["updated_at" := SDatetime t]> (CourseBase_model_dump c))))
  = Some {| course.base := c; course.id := i;
            course.created_at := t; course.updated_at := t |}.
Proof.
  destruct c as [dc cc ti ins da st en lo sz cr [se|] [enr|]]; vm_compute; reflexivity.
Qed.

Lemma getitem_oset {V} (k : UUID) (v : V) (d : odict UUID V) :
  getitem k (oset k v d) = Return v.
Proof. unfold getitem. rewrite oget_oset_eq. reflexivity. Qed.

(** [create_course] when the fresh identifier is not a key of [courses]. *)
Lemma create_course_fresh (i : UUID) (t : datetime) (c : CourseCreate) (st : State) :
  oget i (courses st) = None →
  let r := {| course.base := c; course.id := i;
              course.created_at := t; course.updated_at := t |} in
  create_course i t c st = (Return r, set_courses (oset i r (courses st)) st).
Proof.
  intros Hfresh r. unfold create_course.
  apply omem_false in Hfresh. rewrite Hfresh.
  rewrite CourseRead_init_create. simpl.
  rewrite getitem_oset. reflexivity.
Qed.

(** [create_course] when the fresh identifier is already a key. *)
Lemma create_course_collision (i : UUID) (t : datetime) (c : CourseCreate) (st : State) :
  is_Some (oget i (courses st)) →
  create_course i t c st
  = (Raise (HTTPException 400 "Course with this ID already exists"), st).
Proof.
  intros Hin. unfold create_course.
  apply omem_true in Hin. rewrite Hin. reflexivity.
Qed.

(** [create_student] never returns and never writes: whatever the payload,
    the identifier and the stores, the handler ends in an exception and
    leaves both stores as they were. *)
Lemma create_student_raises ok (i : UUID) (t : datetime) (s : StudentCreate) (st : State) :
  ∃ e, create_student ok i t s st = (Raise e, st).
Proof.
  unfold create_student.
  destruct (omem i (courses st)); [eauto|].
  destruct (StudentRead_init _ _); [|eauto].
  unfold StudentRead_setitem. eauto.
Qed.

(** [get_person] never returns either. *)
Lemma get_person_raises (i : UUID) (st : State) :
  ∃ e, get_person i st = Raise e.
Proof.
  unfold get_person. destruct (negb _); [eauto|].
  unfold UUID_getitem. eauto.
Qed.

End create_facts.

(** ** The student Create and Get-by-id handlers *)

Section student_create_properties.
Import course student main examples.

(** C1. The specification says that a valid student Create stores the Read
    record under the fresh identifier and returns it, and that Get-by-id
    then returns it. The code does neither: [create_student] ends in an
    exception for every payload and leaves [students] as it was (on the
    payload [ada] over the empty stores the exception is [TypeError], from
    the item assignment on the model), and [get_person] signals NotFound for
    an identifier that is not a key of [students] and raises [TypeError] for
    one that is. *)
Theorem create_student_stores_nothing :
  (∀ ok i t s st, ∃ e, create_student ok i t s st = (Raise e, st)) ∧
  (∀ i st,
     get_person i st
     = if omem i (students st) then Raise TypeError
       else Raise (HTTPException 404 "Student not found")) ∧
  create_student has_at 7%N 1000 ada empty = (Raise TypeError, empty) ∧
  oget 7%N (students one_student) = Some (ada_read 7%N 1000) ∧
  get_person 7%N one_student = Raise TypeError.
Proof.
  split; [intros; apply create_student_raises|].
  split.
  - intros i st. unfold get_person. destruct (omem i (students st)); reflexivity.
  - repeat split; vm_compute; reflexivity.
Qed.

(** C2. The specification says that the Read record returned by Create
    carries the payload's fields, an identifier and two equal timestamps,
    for Course and for Student. [create_course] does so on every payload
    whose fresh identifier is not taken; [create_student] builds such a
    record, then raises [TypeError] before its [return]: on the valid
    payload [ada] no record is returned. *)
Theorem create_student_returns_no_record :
  StudentCreate_init has_at (StudentBase_model_dump ada) = Some ada ∧
  create_student has_at 7%N 1000 ada empty = (Raise TypeError, empty) ∧
  (∀ i t c,
     create_course i t c empty
     = (Return {| course.base := c; course.id := i;
                  course.created_at := t; course.updated_at := t |},
        set_courses [(i, {| course.base := c; course.id := i;
                            course.created_at := t; course.updated_at := t |})]
          empty)).
Proof.
  split; [vm_compute; reflexivity|].
  split; [vm_compute; reflexivity|].
  intros i t c. apply (create_course_fresh i t c empty). reflexivity.
Qed.

(** C6. The specification says that each Create handler checks the fresh
    identifier against its own collection. [create_course] signals Conflict
    exactly when the identifier is a key of [courses]; [create_student] also
    signals Conflict exactly when the identifier is a key of [courses],
    whatever [students] holds: a fresh identifier that is only a course key
    is refused, and one that is only a student key is not. *)
Theorem create_student_checks_courses :
  (∀ i t c st, is_conflict (create_course i t c st).1 = omem i (courses st)) ∧
  (∀ ok i t s st, is_conflict (create_student ok i t s st).1 = omem i (courses st)) ∧
  omem 7%N (students one_course) = false ∧
  create_student has_at 7%N 1000 ada one_course
  = (Raise (HTTPException 400 "Student with this ID already exists"), one_course) ∧
  omem 7%N (students one_student) = true ∧
  is_conflict (create_student has_at 7%N 1000 ada one_student).1 = false.
Proof.
  split; [|split].
  - intros i t c st. unfold create_course.
    destruct (omem i (courses st)) eqn:Hm; [reflexivity|].
    rewrite CourseRead_init_create. simpl. rewrite getitem_oset. reflexivity.
  - intros ok i t s st. unfold create_student.
    destruct (omem i (courses st)); [reflexivity|].
    destruct (StudentRead_init _ _); reflexivity.
  - repeat split; vm_compute; reflexivity.
Qed.

End student_create_properties.

(** ** The list endpoints *)

Section list_facts.
Import course student main conditions examples.

Lemma step_pure {A} (f : string → A → bool) (param : option string) (l : list A) :
  step param (λ q x, Return (f q x)) l
  = pure_step (λ x, match param with Some q => f q x | None => true end) l.
Proof.
  unfold step, pure_step. destruct param as [q|].
  - apply comprehension_pure.
  - f_equal. induction l as [|x l IH]; simpl; congruence.
Qed.

Lemma step_nil {A} (param : option string) (c : string → A → outcome bool) :
  step param c [] = Return [].
Proof. destruct param; reflexivity. Qed.

(** Filters that cannot raise compose with AND semantics... *)
Lemma run_pure {A} (ps : list (A → bool)) (l : list A) :
  run (map pure_step ps) l = Return (List.filter (λ x, forallb (λ p, p x) ps) l).
Proof.
  revert l. induction ps as [|p ps IH]; intros l; simpl.
  - f_equal. induction l as [|x l IHl]; simpl; congruence.
  - rewrite IH. f_equal.
    induction l as [|x l IHl]; simpl; [reflexivity|].
    destruct (p x); simpl; [|exact IHl].
    destruct (forallb _ ps); simpl; congruence.
Qed.

(** ... and in any order give the same list. *)
Lemma run_pure_Permutation {A} (ps ps' : list (A → bool)) (l : list A) :
  Permutation ps ps' → run (map pure_step ps) l = run (map pure_step ps') l.
Proof.
  intros Hp. rewrite !run_pure. f_equal.
  apply List.filter_ext. intros x.
  induction Hp as [|p ps1 ps2 _ IH|p1 p2 ps1|ps1 ps2 ps3 _ IH1 _ IH2]; simpl.
  - reflexivity.
  - rewrite IH. reflexivity.
  - destruct (p1 x), (p2 x); reflexivity.
  - congruence.
Qed.

(** [c.course_id] raises on every course. *)
Lemma course_course_code_raises (q : string) (c : CourseRead) :
  course_course_code q c = Raise AttributeError.
Proof. reflexivity. Qed.

(** Without [course_code], [list_courses] is the conjunction of the
    supplied conditions... *)
Lemma list_courses_no_course_code (dc ti ins da s e : option string) (st : State) :
  list_courses dc None ti ins da s e st
  = Return (List.filter (λ c, forallb (λ p, p c) (course_conditions dc ti ins da s e))
              (ovalues (courses st))).
Proof.
  rewrite <- run_pure. unfold list_courses, list_courses_steps, course_conditions.
  simpl. unfold course_department_code, course_title, course_instructor,
    course_days, course_start_time, course_end_time.
  rewrite (step_pure (λ q (c : CourseRead), pystr.eqb (pystr.lower (department_code c)) (pystr.lower q))).
  unfold pure_step at 1. simpl.
  rewrite (step_pure (λ q (c : CourseRead), pystr.contains (pystr.lower q) (pystr.lower (title c)))).
  unfold pure_step at 1. simpl.
  rewrite (step_pure (λ q (c : CourseRead), pystr.contains (pystr.lower q) (pystr.lower (instructor c)))).
  unfold pure_step at 1. simpl.
  rewrite (step_pure (λ q (c : CourseRead), pystr.contains (pystr.lower q) (pystr.lower (days c)))).
  unfold pure_step at 1. simpl.
  rewrite (step_pure (λ q (c : CourseRead), pystr.eqb (pystr.lower (start_time c)) (pystr.lower q))).
  unfold pure_step at 1. simpl.
  rewrite (step_pure (λ q (c : CourseRead), pystr.eqb (pystr.lower (end_time c)) (pystr.lower q))).
  reflexivity.
Qed.

(** ... and the conditions may be applied in any order. *)
Lemma list_courses_no_course_code_any_order (dc ti ins da s e : option string)
    (st : State) (ps : list (CourseRead → bool)) :
  Permutation (course_conditions dc ti ins da s e) ps →
  run (map pure_step ps) (ovalues (courses st)) = list_courses dc None ti ins da s e st.
Proof.
  intros Hp. rewrite list_courses_no_course_code, <- run_pure.
  symmetry. apply run_pure_Permutation, Hp.
Qed.

(** Without [instructor], [list_students] is the conjunction of the
    supplied conditions. *)
Lemma list_students_no_instructor (un fn ln ma gr em ph bd dc : option string) (st : State) :
  list_students un fn ln ma gr em ph bd dc None st
  = Return (List.filter (λ s, forallb (λ p, p s) (student_conditions un fn ln ma gr em ph bd dc))
              (ovalues (students st))).
Proof.
  rewrite <- run_pure. unfold list_students, list_students_steps, student_conditions.
  simpl. unfold student_uni, student_first_name, student_last_name, student_major,
    student_grade, student_email, student_phone, student_birth_date,
    student_department_code.
  rewrite (step_pure (λ q (s : StudentRead), pystr.eqb (pystr.lower (uni s)) (pystr.lower q))).
  unfold pure_step at 1. simpl.
  rewrite (step_pure (λ q (s : StudentRead), pystr.eqb (pystr.lower (first_name s)) (pystr.lower q))).
  unfold pure_step at 1. simpl.
  rewrite (step_pure (λ q (s : StudentRead), pystr.eqb (pystr.lower (last_name s)) (pystr.lower q))).
  unfold pure_step at 1. simpl.
  rewrite (step_pure (λ q (s : StudentRead), pystr.eqb (pystr.lower (major s)) (pystr.lower q))).
  unfold pure_step at 1. simpl.
  rewrite (step_pure (λ q (s : StudentRead), pystr.eqb (pystr.lower (grade s)) (pystr.lower q))).
  unfold pure_step at 1. simpl.
  rewrite (step_pure (λ q (s : StudentRead), pystr.eqb (email s) q)).
  unfold pure_step at 1. simpl.
  rewrite (step_pure (λ q (s : StudentRead), bool_decide (phone s = Some q))).
  unfold pure_step at 1. simpl.
  rewrite (step_pure (λ q (s : StudentRead), pystr.eqb (opt_date_str (birth_date s)) q)).
  unfold pure_step at 1. simpl.
  rewrite (step_pure (λ q (s : StudentRead),
             existsb (λ c, pystr.eqb (pystr.lower (department_code c)) (pystr.lower q))
               (student.courses s))).
  reflexivity.
Qed.

(** With [instructor], the last comprehension raises [NameError] as soon as
    a student has passed the filters before it. *)
Lemma list_students_instructor (un fn ln ma gr em ph bd dc : option string) (q : string)
    (st : State) :
  list_students un fn ln ma gr em ph bd dc (Some q) st
  = match List.filter (λ s, forallb (λ p, p s) (student_conditions un fn ln ma gr em ph bd dc))
            (ovalues (students st)) with
    | [] => Return []
    | _ :: _ => Raise NameError
    end.
Proof.
  pose proof (list_students_no_instructor un fn ln ma gr em ph bd dc st) as Hno.
  unfold list_students in *.
  change (list_students_steps un fn ln ma gr em ph bd dc None)
    with (firstn 9 (list_students_steps un fn ln ma gr em ph bd dc None)
          ++ [step None student_instructor])%list in Hno.
  change (list_students_steps un fn ln ma gr em ph bd dc (Some q))
    with (firstn 9 (list_students_steps un fn ln ma gr em ph bd dc None)
          ++ [step (Some q) student_instructor])%list.
  rewrite run_app in Hno |- *.
  destruct (run (firstn 9 _) _) as [r|e]; simpl in Hno |- *; [|discriminate Hno].
  injection Hno as ->.
  rewrite (comprehension_raise NameError) by reflexivity.
  destruct (List.filter _ _); reflexivity.
Qed.

(** With [course_code], the second comprehension raises [AttributeError] as
    soon as a course has passed the [department_code] filter. *)
Lemma list_courses_with_course_code (dc ti ins da s e : option string) (q : string)
    (st : State) :
  list_courses dc (Some q) ti ins da s e st
  = match List.filter
            (λ c : CourseRead,
               match dc with
               | Some d => pystr.eqb (pystr.lower (department_code c)) (pystr.lower d)
               | None => true
               end)
            (ovalues (courses st)) with
    | [] => Return []
    | _ :: _ => Raise AttributeError
    end.
Proof.
  unfold list_courses, list_courses_steps. simpl.
  unfold course_department_code.
  rewrite (step_pure (λ d (c : CourseRead),
             pystr.eqb (pystr.lower (department_code c)) (pystr.lower d))).
  unfold pure_step. simpl.
  rewrite (comprehension_raise AttributeError) by (intros; apply course_course_code_raises).
  destruct (List.filter _ _); simpl; [|reflexivity].
  repeat (rewrite step_nil; simpl). reflexivity.
Qed.

End list_facts.

Section list_properties.
Import course student main conditions examples.

Lemma filter_all {A} (p : A → bool) (l : list A) :
  (∀ x, p x = true) → List.filter p l = l.
Proof.
  intros Hp. induction l as [|x l IH]; simpl; [reflexivity|].
  rewrite Hp, IH. reflexivity.
Qed.

(** The [instructor] filter of [list_students] iterates over [p.courses],
    and [p] is not defined: on a store that holds a student the request
    raises [NameError], also for [ada], who has a course of that
    instructor. No run of the service reaches such a store (see
    [serve_all_students]): [create_student] never writes. The
    [department_code] filter keeps the students with a matching course. *)
Lemma list_students_instructor_raises :
  has_instructor "donald ferguson" (ada_read 7%N 1000) = true ∧
  list_students None None None None None None None None None
    (Some "donald ferguson") one_student = Raise NameError ∧
  (∀ q st,
     list_students None None None None None None None None None (Some q) st
     = match ovalues (students st) with
       | [] => Return []
       | _ :: _ => Raise NameError
       end) ∧
  (∀ q st,
     list_students None None None None None None None None (Some q) None st
     = Return (List.filter
                 (λ s : StudentRead,
                    existsb (λ c, pystr.eqb (pystr.lower (department_code c)) (pystr.lower q))
                      (student.courses s))
                 (ovalues (students st)))).
Proof.
  split; [vm_compute; reflexivity|].
  split; [vm_compute; reflexivity|].
  split.
  - intros q st. rewrite list_students_instructor.
    rewrite filter_all by reflexivity. reflexivity.
  - intros q st. rewrite list_students_no_instructor. f_equal.
    apply List.filter_ext. intros s. simpl. apply andb_true_r.
Qed.

(** C7. The specification says that the filters of the list endpoints
    compose with AND semantics and give the same result in every order. That
    holds for the conditions that cannot raise
    ([list_courses_no_course_code],
    [list_courses_no_course_code_any_order]). The condition on [course_code]
    reads [c.course_id] and the one on [instructor] of a student reads
    [p.courses]: both raise on the first record they visit. So a request
    with [course_code] over one course raises instead of returning the
    courses that satisfy all conditions, and the order matters: with a
    [department_code] that no course has, the order of the source returns
    the empty list and the other order raises. *)
Theorem list_filters_order_matters :
  list_courses None (Some "4153") None None None None None one_course
  = Raise AttributeError ∧
  run [ step (Some "MATH") course_department_code;
        step (Some "4153") course_course_code ]
      (ovalues (courses one_course)) = Return [] ∧
  run [ step (Some "4153") course_course_code;
        step (Some "MATH") course_department_code ]
      (ovalues (courses one_course)) = Raise AttributeError ∧
  run [ step (Some "zz9") student_uni;
        step (Some "Donald Ferguson") student_instructor ]
      (ovalues (students one_student)) = Return [] ∧
  run [ step (Some "Donald Ferguson") student_instructor;
        step (Some "zz9") student_uni ]
      (ovalues (students one_student)) = Raise NameError.
Proof. repeat split; vm_compute; reflexivity. Qed.

(** C8. After the course of the example is created in the empty store,
    whatever identifier and time the server draws, listing the courses with
    [instructor="ferguson"] returns exactly that course; and on every store
    the [instructor] filter alone keeps the courses whose instructor
    contains the parameter, both lower-cased. *)
Theorem create_then_list_by_instructor :
  (∀ i t,
     create_course i t cloud_computing empty
     = (Return (cloud_computing_read i t),
        {| students := []; courses := [(i, cloud_computing_read i t)] |}) ∧
     list_courses None None None (Some "ferguson") None None None
       {| students := []; courses := [(i, cloud_computing_read i t)] |}
     = Return [cloud_computing_read i t]) ∧
  (∀ q st,
     list_courses None None None (Some q) None None None st
     = Return (List.filter
                 (λ c : CourseRead,
                    pystr.contains (pystr.lower q) (pystr.lower (instructor c)))
                 (ovalues (courses st)))).
Proof.
  split.
  - intros i t. split.
    + apply (create_course_fresh i t cloud_computing empty). reflexivity.
    + vm_compute. reflexivity.
  - intros q st. rewrite list_courses_no_course_code. f_equal.
    apply List.filter_ext. intros c. simpl. apply andb_true_r.
Qed.

(** C10, as stated, fails: the store holds a course, the request supplies
    [course_code], and the answer is the empty list, because the
    [department_code] filter, which runs first, has kept no course. *)
Lemma list_courses_course_code_returns :
  ovalues (courses one_course) ≠ [] ∧
  list_courses (Some "MATH") (Some "4153") None None None None None one_course
  = Return [].
Proof. split; [discriminate | vm_compute; reflexivity]. Qed.

(** C10, amended. A course list request that supplies [course_code] raises
    [AttributeError] exactly when at least one stored course passes the
    [department_code] filter (every stored course, when that parameter is
    not supplied), and returns the empty list otherwise: [CourseRead] has no
    attribute [course_id], for any course. *)
Theorem list_courses_course_code_raises :
  (∀ c : CourseRead, CourseRead_getattr c "course_id" = None) ∧
  (∀ q ti ins da s e st,
     list_courses None (Some q) ti ins da s e st
     = match ovalues (courses st) with
       | [] => Return []
       | _ :: _ => Raise AttributeError
       end) ∧
  (∀ d q ti ins da s e st,
     list_courses (Some d) (Some q) ti ins da s e st
     = match List.filter
               (λ c : CourseRead,
                  pystr.eqb (pystr.lower (department_code c)) (pystr.lower d))
               (ovalues (courses st)) with
       | [] => Return []
       | _ :: _ => Raise AttributeError
       end).
Proof.
  split; [reflexivity|]. split.
  - intros. rewrite list_courses_with_course_code.
    rewrite filter_all by reflexivity. reflexivity.
  - intros. apply list_courses_with_course_code.
Qed.

End list_properties.

(** ** Delete and Get-by-id *)

Section delete_properties.
Import course student main examples.

Lemma getitem_Some {V} (k : UUID) (v : V) (d : odict UUID V) :
  oget k d = Some v → omem k d = true ∧ getitem k d = Return v.
Proof. intros Hk. unfold omem, getitem. rewrite Hk. split; reflexivity. Qed.

Lemma delete_course_stored (i : UUID) (r : CourseRead) (st : State) :
  oget i (courses st) = Some r →
  delete_course i st = (Return r, set_courses (odel i (courses st)) st).
Proof.
  intros Hi. apply getitem_Some in Hi as [Hm Hg].
  unfold delete_course. rewrite Hm, Hg. reflexivity.
Qed.

Lemma delete_person_stored (i : UUID) (r : StudentRead) (st : State) :
  oget i (students st) = Some r →
  delete_person i st = (Return r, set_students (odel i (students st)) st).
Proof.
  intros Hi. apply getitem_Some in Hi as [Hm Hg].
  unfold delete_person. rewrite Hm, Hg. reflexivity.
Qed.

Lemma get_course_absent (i : UUID) (st : State) :
  oget i (courses st) = None →
  get_course i st = Raise (HTTPException 404 "Course not found").
Proof.
  intros Hi. apply omem_false in Hi. unfold get_course. rewrite Hi. reflexivity.
Qed.

Lemma get_person_absent (i : UUID) (st : State) :
  oget i (students st) = None →
  get_person i st = Raise (HTTPException 404 "Student not found").
Proof.
  intros Hi. apply omem_false in Hi. unfold get_person. rewrite Hi. reflexivity.
Qed.

(** C4. Delete of a stored identifier returns the stored Read record and
    removes the identifier from its store, leaving the other identifiers and
    the other store as they were; Get-by-id with that identifier then
    signals NotFound; Delete of an identifier that is not stored signals
    NotFound and changes nothing. This holds for [courses] and for
    [students], and so for the course that [create_course] has just stored. *)
Theorem delete_then_get_not_found :
  (∀ i r st, oget i (courses st) = Some r →
     delete_course i st = (Return r, set_courses (odel i (courses st)) st) ∧
     oget i (courses (delete_course i st).2) = None ∧
     (∀ j, i ≠ j → oget j (courses (delete_course i st).2) = oget j (courses st)) ∧
     students (delete_course i st).2 = students st ∧
     get_course i (delete_course i st).2
     = Raise (HTTPException 404 "Course not found")) ∧
  (∀ i st, oget i (courses st) = None →
     delete_course i st = (Raise (HTTPException 404 "Course not found"), st)) ∧
  (∀ i r st, oget i (students st) = Some r →
     delete_person i st = (Return r, set_students (odel i (students st)) st) ∧
     oget i (students (delete_person i st).2) = None ∧
     (∀ j, i ≠ j → oget j (students (delete_person i st).2) = oget j (students st)) ∧
     courses (delete_person i st).2 = courses st ∧
     get_person i (delete_person i st).2
     = Raise (HTTPException 404 "Student not found")) ∧
  (∀ i st, oget i (students st) = None →
     delete_person i st = (Raise (HTTPException 404 "Student not found"), st)) ∧
  (∀ i t c st, oget i (courses st) = None →
     ∃ r st1,
       create_course i t c st = (Return r, st1) ∧
       delete_course i st1 = (Return r, set_courses (odel i (courses st1)) st1) ∧
       get_course i (delete_course i st1).2
       = Raise (HTTPException 404 "Course not found")).
Proof.
  assert (Hc : ∀ i r st, oget i (courses st) = Some r →
     delete_course i st = (Return r, set_courses (odel i (courses st)) st) ∧
     oget i (courses (delete_course i st).2) = None ∧
     (∀ j, i ≠ j → oget j (courses (delete_course i st).2) = oget j (courses st)) ∧
     students (delete_course i st).2 = students st ∧
     get_course i (delete_course i st).2
     = Raise (HTTPException 404 "Course not found")).
  { intros i r st Hi. rewrite (delete_course_stored i r st Hi). simpl.
    split; [reflexivity|]. split; [apply oget_odel_eq|].
    split; [intros j Hj; apply oget_odel_ne, Hj|].
    split; [reflexivity|].
    apply get_course_absent. simpl. apply oget_odel_eq. }
  split; [exact Hc|]. split.
  { intros i st Hi. apply omem_false in Hi.
    unfold delete_course. rewrite Hi. reflexivity. }
  split.
  { intros i r st Hi. rewrite (delete_person_stored i r st Hi). simpl.
    split; [reflexivity|]. split; [apply oget_odel_eq|].
    split; [intros j Hj; apply oget_odel_ne, Hj|].
    split; [reflexivity|].
    apply get_person_absent. simpl. apply oget_odel_eq. }
  split.
  { intros i st Hi. apply omem_false in Hi.
    unfold delete_person. rewrite Hi. reflexivity. }
  intros i t c st Hi.
  eexists _, _. split; [apply create_course_fresh, Hi|].
  edestruct Hc as (Hd & _ & _ & _ & Hg); [|split; [exact Hd | exact Hg]].
  simpl. apply oget_oset_eq.
Qed.

(** The course and the student of the examples, deleted from the stores
    that hold them, and the course created and deleted again. *)
Lemma delete_then_get_not_found_witness :
  (delete_course 7%N one_course = (Return (cloud_computing_read 7%N 1000), empty) ∧
   get_course 7%N empty = Raise (HTTPException 404 "Course not found")) ∧
  delete_course 8%N one_course
  = (Raise (HTTPException 404 "Course not found"), one_course) ∧
  (delete_person 7%N one_student = (Return (ada_read 7%N 1000), empty) ∧
   get_person 7%N empty = Raise (HTTPException 404 "Student not found")) ∧
  delete_person 8%N one_student
  = (Raise (HTTPException 404 "Student not found"), one_student) ∧
  (∃ r st1,
     create_course 9%N 2000 cloud_computing one_course = (Return r, st1) ∧
     delete_course 9%N st1 = (Return r, set_courses (odel 9%N (courses st1)) st1) ∧
     get_course 9%N (delete_course 9%N st1).2
     = Raise (HTTPException 404 "Course not found")).
Proof.
  destruct delete_then_get_not_found as (Hc & Hcn & Hs & Hsn & Hcr).
  split.
  { destruct (Hc 7%N (cloud_computing_read 7%N 1000) one_course) as (Hd & _ & _ & _ & Hg);
      [reflexivity|].
    split; [exact Hd | exact Hg]. }
  split; [apply Hcn; reflexivity|].
  split.
  { destruct (Hs 7%N (ada_read 7%N 1000) one_student) as (Hd & _ & _ & _ & Hg);
      [reflexivity|].
    split; [exact Hd | exact Hg]. }
  split; [apply Hsn; reflexivity|].
  apply Hcr. reflexivity.
Defined.

End delete_properties.

(** ** Partial update *)

Section update_facts.
Import course student main overlay examples.

Lemma lookup_dump_set_eq {Val} (k : string) (x : option Val) (d : gmap string Val) :
  dump_set k x d !! k = match x with Some v => Some v | None => d !! k end.
Proof. destruct x; simpl; [apply lookup_insert_eq | reflexivity]. Qed.

Lemma lookup_dump_set_ne {Val} (k k' : string) (x : option Val) (d : gmap string Val) :
  k ≠ k' → dump_set k x d !! k' = d !! k'.
Proof. intros Hne. destruct x; simpl; [apply lookup_insert_ne, Hne | reflexivity]. Qed.

Lemma lookup_dict_update {Val} (d other : gmap string Val) (k : string) :
  dict_update d other !! k = match other !! k with Some v => Some v | None => d !! k end.
Proof.
  unfold dict_update. rewrite lookup_union.
  destruct (other !! k), (d !! k); reflexivity.
Qed.

(** Reads one field of the dictionary that an update handler hands to the
    Read constructor: the entry [updated_at], over the payload's dump, over
    the stored record's dump. *)
Ltac read_merged dump :=
  unfold req_str, req_int, opt_str, opt_int, opt_date, req_uuid, req_datetime, field;
  first [ rewrite lookup_insert_eq | rewrite lookup_insert_ne by discriminate ];
  try rewrite lookup_dict_update;
  unfold dump;
  repeat first [ rewrite lookup_dump_set_eq
               | rewrite lookup_dump_set_ne by discriminate ].

Section course.
Context (old : CourseRead) (u : CourseUpdate) (now : datetime).

Lemma course_stored_str (k : string) (x : option (option string)) (v : string) :
  k ≠ "updated_at" →
  CourseUpdate_model_dump_exclude_unset u !! k = of_opt SStr <$> x →
  CourseRead_model_dump old !! k = Some (SStr v) →
  req_str Some (course_stored now old u) k = pick_req x v.
Proof.
  intros Hk Hu Ho. unfold req_str, field, course_stored.
  rewrite lookup_insert_ne by congruence.
  rewrite lookup_dict_update, Hu, Ho.
  destruct x as [[?|]|]; reflexivity.
Qed.

Lemma course_stored_int (k : string) (x : option (option Z)) (v : Z) :
  k ≠ "updated_at" →
  CourseUpdate_model_dump_exclude_unset u !! k = of_opt SInt <$> x →
  CourseRead_model_dump old !! k = Some (SInt v) →
  req_int Some (course_stored now old u) k = pick_req x v.
Proof.
  intros Hk Hu Ho. unfold req_int, field, course_stored.
  rewrite lookup_insert_ne by congruence.
  rewrite lookup_dict_update, Hu, Ho.
  destruct x as [[?|]|]; reflexivity.
Qed.

Lemma course_stored_opt_str (k : string) (x : option (option string)) (v : option string) :
  k ≠ "updated_at" →
  CourseUpdate_model_dump_exclude_unset u !! k = of_opt SStr <$> x →
  CourseRead_model_dump old !! k = Some (of_opt SStr v) →
  opt_str Some (course_stored now old u) k = Some (pick_opt x v).
Proof.
  intros Hk Hu Ho. unfold opt_str, course_stored.
  rewrite lookup_insert_ne by congruence.
  rewrite lookup_dict_update, Hu, Ho.
  destruct x as [[?|]|]; try reflexivity. destruct v; reflexivity.
Qed.

Lemma course_stored_opt_int (k : string) (x : option (option Z)) (v : option Z) :
  k ≠ "updated_at" →
  CourseUpdate_model_dump_exclude_unset u !! k = of_opt SInt <$> x →
  CourseRead_model_dump old !! k = Some (of_opt SInt v) →
  opt_int Some (course_stored now old u) k = Some (pick_opt x v).
Proof.
  intros Hk Hu Ho. unfold opt_int, course_stored.
  rewrite lookup_insert_ne by congruence.
  rewrite lookup_dict_update, Hu, Ho.
  destruct x as [[?|]|]; try reflexivity. destruct v; reflexivity.
Qed.

Ltac payload_entry :=
  unfold CourseUpdate_model_dump_exclude_unset;
  repeat first [ rewrite lookup_dump_set_eq
               | rewrite lookup_dump_set_ne by discriminate ];
  match goal with |- context [fmap _ ?x] => destruct x; reflexivity end.

(** The Read record that [update_course] builds is the field-by-field
    overlay, with the stored [id] and [created_at] and the new
    [updated_at]. *)
Lemma CourseRead_init_kwargs :
  CourseRead_init (course_stored now old u)
  = b ← CourseBase_overlay u old;
    Some {| course.base := b; course.id := course.id old;
            course.created_at := course.created_at old;
            course.updated_at := now |}.
Proof.
  unfold CourseRead_init, CourseBase_init, CourseBase_overlay.
  rewrite (course_stored_str "department_code" (u_department_code u) (department_code old))
    by first [discriminate | payload_entry | reflexivity].
  rewrite (course_stored_str "course_code" (u_course_code u) (course_code old))
    by first [discriminate | payload_entry | reflexivity].
  rewrite (course_stored_str "title" (u_title u) (title old))
    by first [discriminate | payload_entry | reflexivity].
  rewrite (course_stored_str "instructor" (u_instructor u) (instructor old))
    by first [discriminate | payload_entry | reflexivity].
  rewrite (course_stored_str "days" (u_days u) (days old))
    by first [discriminate | payload_entry | reflexivity].
  rewrite (course_stored_str "start_time" (u_start_time u) (start_time old))
    by first [discriminate | payload_entry | reflexivity].
  rewrite (course_stored_str "end_time" (u_end_time u) (end_time old))
    by first [discriminate | payload_entry | reflexivity].
  rewrite (course_stored_str "location" (u_location u) (location old))
    by first [discriminate | payload_entry | reflexivity].
  rewrite (course_stored_int "size" (u_size u) (size old))
    by first [discriminate | payload_entry | reflexivity].
  rewrite (course_stored_int "credit" (u_credit u) (credit old))
    by first [discriminate | payload_entry | reflexivity].
  rewrite (course_stored_opt_str "section" (u_section u) (section old))
    by first [discriminate | payload_entry | reflexivity].
  rewrite (course_stored_opt_int "enrollment" (u_enrollment u) (enrollment old))
    by first [discriminate | payload_entry | reflexivity].
  assert (Hid : req_uuid Some (course_stored now old u) "id" = Some (course.id old)).
  { unfold course_stored. read_merged CourseUpdate_model_dump_exclude_unset. reflexivity. }
  assert (Hca : req_datetime Some (course_stored now old u) "created_at" = Some (course.created_at old)).
  { unfold course_stored. read_merged CourseUpdate_model_dump_exclude_unset. reflexivity. }
  assert (Hua : req_datetime Some (course_stored now old u) "updated_at" = Some now).
  { unfold course_stored. read_merged CourseUpdate_model_dump_exclude_unset. reflexivity. }
  rewrite Hid, Hca, Hua.
  repeat (destruct (pick_req _ _); simpl; [|reflexivity]).
  reflexivity.
Qed.

End course.

(** A dumped course validates back to itself, and so does a dumped list of
    courses. *)
Lemma CourseBase_init_dump (c : CourseBase) :
  CourseBase_init Some (CourseBase_model_dump c) = Some c.
Proof.
  destruct c as [dc cc ti ins da st en lo sz cr [se|] [enr|]]; vm_compute; reflexivity.
Qed.

Lemma mapM_CourseBase_init_dump (l : list CourseBase) :
  mapM (CourseBase_init Some) (map CourseBase_model_dump l) = Some l.
Proof.
  induction l as [|c l IH]; simpl; [reflexivity|].
  rewrite CourseBase_init_dump. simpl. rewrite IH. reflexivity.
Qed.

Section student.
Context (EmailStr_ok : string → bool).
Context (old : StudentRead) (u : StudentUpdate) (now : datetime).

Lemma student_stored_str (k : string) (x : option (option string)) (v : string) :
  k ≠ "updated_at" →
  StudentUpdate_model_dump_exclude_unset u !! k = Atom ∘ of_opt SStr <$> x →
  StudentRead_model_dump old !! k = Some (Atom (SStr v)) →
  req_str atom_of (student_stored now old u) k = pick_req x v.
Proof.
  intros Hk Hu Ho. unfold req_str, field, student_stored.
  rewrite lookup_insert_ne by congruence.
  rewrite lookup_dict_update, Hu, Ho.
  destruct x as [[?|]|]; reflexivity.
Qed.

Lemma student_stored_opt_str (k : string) (x : option (option string)) (v : option string) :
  k ≠ "updated_at" →
  StudentUpdate_model_dump_exclude_unset u !! k = Atom ∘ of_opt SStr <$> x →
  StudentRead_model_dump old !! k = Some (Atom (of_opt SStr v)) →
  opt_str atom_of (student_stored now old u) k = Some (pick_opt x v).
Proof.
  intros Hk Hu Ho. unfold opt_str, student_stored.
  rewrite lookup_insert_ne by congruence.
  rewrite lookup_dict_update, Hu, Ho.
  destruct x as [[?|]|]; try reflexivity. destruct v; reflexivity.
Qed.

Lemma student_stored_opt_date (k : string) (x : option (option date)) (v : option date) :
  k ≠ "updated_at" →
  StudentUpdate_model_dump_exclude_unset u !! k = Atom ∘ of_opt SDate <$> x →
  StudentRead_model_dump old !! k = Some (Atom (of_opt SDate v)) →
  opt_date atom_of (student_stored now old u) k = Some (pick_opt x v).
Proof.
  intros Hk Hu Ho. unfold opt_date, student_stored.
  rewrite lookup_insert_ne by congruence.
  rewrite lookup_dict_update, Hu, Ho.
  destruct x as [[?|]|]; try reflexivity. destruct v; reflexivity.
Qed.

Lemma student_stored_courses :
  list_courses_field (student_stored now old u) "courses"
  = pick_req (u_courses u) (student.courses old).
Proof.
  unfold list_courses_field, student_stored.
  rewrite lookup_insert_ne by discriminate.
  rewrite lookup_dict_update.
  unfold StudentUpdate_model_dump_exclude_unset.
  repeat first [ rewrite lookup_dump_set_eq
               | rewrite lookup_dump_set_ne by discriminate ].
  destruct (u_courses u) as [[l|]|]; simpl.
  - apply mapM_CourseBase_init_dump.
  - reflexivity.
  - change (StudentRead_model_dump old !! "courses")
      with (Some (dump_courses (student.courses old))).
    apply mapM_CourseBase_init_dump.
Qed.

Ltac payload_entry :=
  unfold StudentUpdate_model_dump_exclude_unset;
  repeat first [ rewrite lookup_dump_set_eq
               | rewrite lookup_dump_set_ne by discriminate ];
  match goal with |- context [fmap _ ?x] => destruct x; reflexivity end.

(** The Read record that [update_person] builds is the field-by-field
    overlay, with the stored [id] and [created_at] and the new
    [updated_at]. *)
Lemma StudentRead_init_stored :
  StudentRead_init EmailStr_ok (student_stored now old u)
  = b ← StudentBase_overlay EmailStr_ok u old;
    Some {| student.base := b; student.id := student.id old;
            student.created_at := student.created_at old;
            student.updated_at := now |}.
Proof.
  unfold StudentRead_init, StudentBase_init, StudentBase_overlay, req_uni, req_email.
  rewrite (student_stored_str "uni" (u_uni u) (uni old))
    by first [discriminate | payload_entry | reflexivity].
  rewrite (student_stored_str "first_name" (u_first_name u) (first_name old))
    by first [discriminate | payload_entry | reflexivity].
  rewrite (student_stored_str "last_name" (u_last_name u) (last_name old))
    by first [discriminate | payload_entry | reflexivity].
  rewrite (student_stored_str "major" (u_major u) (major old))
    by first [discriminate | payload_entry | reflexivity].
  rewrite (student_stored_str "grade" (u_grade u) (grade old))
    by first [discriminate | payload_entry | reflexivity].
  rewrite (student_stored_str "email" (u_email u) (email old))
    by first [discriminate | payload_entry | reflexivity].
  rewrite (student_stored_opt_str "phone" (u_phone u) (phone old))
    by first [discriminate | payload_entry | reflexivity].
  rewrite (student_stored_opt_date "birth_date" (u_birth_date u) (birth_date old))
    by first [discriminate | payload_entry | reflexivity].
  rewrite student_stored_courses.
  assert (Hid : req_uuid atom_of (student_stored now old u) "id" = Some (student.id old)).
  { unfold student_stored. read_merged StudentUpdate_model_dump_exclude_unset. reflexivity. }
  assert (Hca : req_datetime atom_of (student_stored now old u) "created_at"
                = Some (student.created_at old)).
  { unfold student_stored. read_merged StudentUpdate_model_dump_exclude_unset. reflexivity. }
  assert (Hua : req_datetime atom_of (student_stored now old u) "updated_at" = Some now).
  { unfold student_stored. read_merged StudentUpdate_model_dump_exclude_unset. reflexivity. }
  rewrite Hid, Hca, Hua. unfold checked.
  destruct (pick_req (u_uni u) (uni old)) as [un|]; simpl; [|reflexivity].
  destruct (UNIType_ok un); simpl; [|reflexivity].
  repeat (destruct (pick_req (T:=string) _ _); simpl; [|reflexivity]).
  destruct (EmailStr_ok _); simpl; [|reflexivity].
  destruct (pick_req _ _); reflexivity.
Qed.

End student.
End update_facts.

Section update_properties.
Import course student main overlay examples.

Lemma pick_req_takes {T} (x : option (option T)) (old new : T) :
  pick_req x old = Some new → takes_req x old new.
Proof. destruct x as [v|]; simpl; congruence. Qed.

Lemma pick_opt_takes {T} (x : option (option T)) (old : option T) :
  takes_opt x old (pick_opt x old).
Proof. destruct x; reflexivity. Qed.

Lemma checked_Some (ok : string → bool) (x : option string) (s : string) :
  checked ok x = Some s → x = Some s ∧ ok s = true.
Proof.
  unfold checked. destruct x as [s'|]; simpl; [|discriminate].
  destruct (ok s') eqn:Hok; [|discriminate]. intros [= <-]. auto.
Qed.

Lemma CourseBase_overlay_applied (u : CourseUpdate) (old new : CourseBase) :
  CourseBase_overlay u old = Some new → CourseUpdate_applied u old new.
Proof.
  unfold CourseBase_overlay. intros H.
  repeat match type of H with
  | mbind _ (pick_req ?x ?o) = _ =>
      let E := fresh "E" in
      destruct (pick_req x o) eqn:E; simpl in H; [apply pick_req_takes in E|discriminate H]
  end.
  injection H as <-. unfold CourseUpdate_applied. simpl.
  repeat split; first [assumption | apply pick_opt_takes].
Qed.

Lemma StudentBase_overlay_applied ok (u : StudentUpdate) (old new : StudentBase) :
  StudentBase_overlay ok u old = Some new → StudentUpdate_applied u old new.
Proof.
  unfold StudentBase_overlay. intros H.
  destruct (checked UNIType_ok _) eqn:Eu; simpl in H; [|discriminate H].
  apply checked_Some in Eu as [Eu%pick_req_takes _].
  repeat match type of H with
  | mbind _ (pick_req ?x ?o) = _ =>
      let E := fresh "E" in
      destruct (pick_req x o) eqn:E; simpl in H; [apply pick_req_takes in E|discriminate H]
  end.
  destruct (checked ok _) eqn:Ee; simpl in H; [|discriminate H].
  apply checked_Some in Ee as [Ee%pick_req_takes _].
  destruct (pick_req (u_courses u) _) eqn:Ec; simpl in H; [|discriminate H].
  apply pick_req_takes in Ec.
  injection H as <-. unfold StudentUpdate_applied. simpl.
  repeat split; first [assumption | apply pick_opt_takes].
Qed.

(** [update_course] on a stored identifier: the overlay succeeds and the new
    record is stored in place and returned, or a required field was set to
    null and the handler raises without writing. *)
Lemma update_course_stored (now : datetime) (i : UUID) (u : CourseUpdate) (st : State)
    (old : CourseRead) :
  oget i (courses st) = Some old →
  update_course now i u st
  = match CourseBase_overlay u old with
    | Some b =>
        let r := {| course.base := b; course.id := course.id old;
                    course.created_at := course.created_at old;
                    course.updated_at := now |} in
        (Return r, set_courses (oset i r (courses st)) st)
    | None => (Raise ValidationError, st)
    end.
Proof.
  intros Hi. unfold update_course, getitem, omem. rewrite Hi. simpl.
  rewrite CourseRead_init_kwargs.
  destruct (CourseBase_overlay u old) as [b|]; simpl; [|reflexivity].
  rewrite oget_oset_eq. reflexivity.
Qed.

Lemma update_person_stored ok (now : datetime) (i : UUID) (u : StudentUpdate) (st : State)
    (old : StudentRead) :
  oget i (students st) = Some old →
  update_person ok now i u st
  = match StudentBase_overlay ok u old with
    | Some b =>
        let r := {| student.base := b; student.id := student.id old;
                    student.created_at := student.created_at old;
                    student.updated_at := now |} in
        (Return r, set_students (oset i r (students st)) st)
    | None => (Raise ValidationError, st)
    end.
Proof.
  intros Hi. unfold update_person, getitem, omem. rewrite Hi. simpl.
  rewrite StudentRead_init_stored.
  destruct (StudentBase_overlay ok u old) as [b|]; simpl; [|reflexivity].
  rewrite oget_oset_eq. reflexivity.
Qed.

(** C3. For a stored course or student and any Update payload, when the
    update handler returns a record: every field that the payload does not
    set has the stored value, every field that it sets has the payload's
    value, [id] and [created_at] are the stored ones, [updated_at] is the
    current time, and the record is stored under the identifier. *)
Theorem partial_update_overlay :
  (∀ now i u st old r' st',
     oget i (courses st) = Some old →
     update_course now i u st = (Return r', st') →
     CourseUpdate_applied u old r' ∧
     course.id r' = course.id old ∧
     course.created_at r' = course.created_at old ∧
     course.updated_at r' = now ∧
     st' = set_courses (oset i r' (courses st)) st) ∧
  (∀ ok now i u st old r' st',
     oget i (students st) = Some old →
     update_person ok now i u st = (Return r', st') →
     StudentUpdate_applied u old r' ∧
     student.id r' = student.id old ∧
     student.created_at r' = student.created_at old ∧
     student.updated_at r' = now ∧
     st' = set_students (oset i r' (students st)) st).
Proof.
  split.
  - intros now i u st old r' st' Hi Hup.
    rewrite (update_course_stored now i u st old Hi) in Hup.
    destruct (CourseBase_overlay u old) as [b|] eqn:Hb; [|discriminate Hup].
    simpl in Hup. injection Hup as <- <-. simpl.
    split; [apply CourseBase_overlay_applied, Hb|]. repeat split.
  - intros ok now i u st old r' st' Hi Hup.
    rewrite (update_person_stored ok now i u st old Hi) in Hup.
    destruct (StudentBase_overlay ok u old) as [b|] eqn:Hb; [|discriminate Hup].
    simpl in Hup. injection Hup as <- <-. simpl.
    split; [apply (StudentBase_overlay_applied ok), Hb|]. repeat split.
Qed.

(** The course of the examples moved to Monday and Wednesday, and the
    student renamed and her phone set to null, both at time [2000]. *)
Lemma partial_update_overlay_witness :
  (∃ r' st',
     update_course 2000 7%N days_mw one_course = (Return r', st') ∧
     days r' = "MW" ∧ title r' = "Cloud Computing" ∧
     CourseUpdate_applied days_mw (cloud_computing_read 7%N 1000) r' ∧
     course.created_at r' = 1000 ∧ course.updated_at r' = 2000) ∧
  (∃ r' st',
     update_person has_at 2000 7%N ada_byron one_student = (Return r', st') ∧
     last_name r' = "Byron" ∧ phone r' = None ∧ uni r' = "abc1234" ∧
     StudentUpdate_applied ada_byron (ada_read 7%N 1000) r' ∧
     student.created_at r' = 1000 ∧ student.updated_at r' = 2000).
Proof.
  destruct partial_update_overlay as [Hc Hs]. split.
  - destruct (update_course 2000 7%N days_mw one_course) as [[r'|e] st'] eqn:Hup;
      [|vm_compute in Hup; discriminate Hup].
    exists r', st'.
    destruct (Hc 2000 7%N days_mw one_course (cloud_computing_read 7%N 1000) r' st')
      as (Happ & _ & Hca & Hua & _); [reflexivity | exact Hup |].
    vm_compute in Hup. injection Hup as <- <-.
    repeat split; first [reflexivity | exact Happ].
  - destruct (update_person has_at 2000 7%N ada_byron one_student) as [[r'|e] st'] eqn:Hup;
      [|vm_compute in Hup; discriminate Hup].
    exists r', st'.
    destruct (Hs has_at 2000 7%N ada_byron one_student (ada_read 7%N 1000) r' st')
      as (Happ & _ & Hca & Hua & _); [reflexivity | exact Hup |].
    vm_compute in Hup. injection Hup as <- <-.
    repeat split; first [reflexivity | exact Happ].
Defined.

End update_properties.

(** ** The UNI pattern *)

Section uni_properties.
Import course student main examples.

(** What [C{lo,hi}] followed by [k] accepts: a run of [lo] to [hi]
    characters of the class, then a rest that [k] accepts. *)
Lemma append_empty (b : string) : "" ++ b = b.
Proof. reflexivity. Qed.

Lemma append_String (x : ascii) (a b : string) : String x a ++ b = String x (a ++ b).
Proof. reflexivity. Qed.

Lemma append_empty_r (a : string) : a ++ "" = a.
Proof.
  induction a as [|x a IH]; [reflexivity|].
  rewrite append_String, IH. reflexivity.
Qed.

Lemma rep_spec (c : ascii → bool) (k : string → bool) (hi lo : nat) (s : string) :
  re.rep c k lo hi s = true ↔
  ∃ a b, s = a ++ b ∧ (lo ≤ String.length a ≤ hi)%nat ∧
         re.all_in c a = true ∧ k b = true.
Proof.
  revert lo s. induction hi as [|hi IH]; intros lo s; simpl.
  - rewrite andb_true_iff, Nat.eqb_eq. split.
    + intros [-> Hk]. exists "", s. simpl. repeat split; [lia | lia | exact Hk].
    + intros (a & b & -> & [Hlo Hhi] & _ & Hk).
      destruct a; simpl in *; [|lia]. split; [lia | exact Hk].
  - destruct s as [|x s].
    + rewrite andb_true_iff, Nat.eqb_eq. split.
      * intros [-> Hk]. exists "", "". simpl. repeat split; [lia | lia | exact Hk].
      * intros (a & b & Hs & [Hlo Hhi] & _ & Hk).
        destruct a; [|rewrite append_String in Hs; discriminate Hs].
        rewrite append_empty in Hs. subst b. simpl in Hlo. split; [lia | exact Hk].
    + rewrite orb_true_iff, !andb_true_iff, Nat.eqb_eq, IH. split.
      * intros [[Hx (a & b & -> & [Hlo Hhi] & Ha & Hk)] | [-> Hk]].
        -- exists (String x a), b. simpl. rewrite Hx, Ha.
           repeat split; [lia | lia | exact Hk].
        -- exists "", (String x s). simpl. repeat split; [lia | lia | exact Hk].
      * intros (a & b & Hs & [Hlo Hhi] & Ha & Hk).
        destruct a as [|y a].
        -- rewrite append_empty in Hs. subst b. simpl in Hlo.
           right. split; [lia | exact Hk].
        -- rewrite append_String in Hs. injection Hs as <- ->.
           simpl in Hlo, Hhi, Ha. apply andb_true_iff in Ha as [Hy Ha].
           left. split; [exact Hy|]. exists a, b.
           repeat split; [lia | lia | exact Ha | exact Hk].
Qed.

(** [UNIType] accepts exactly two or three lower-case letters followed by
    one to four digits. *)
Lemma UNIType_ok_spec (s : string) :
  UNIType_ok s = true ↔
  ∃ letters digits, s = letters ++ digits ∧
    (2 ≤ String.length letters ≤ 3)%nat ∧ re.all_in re.lower_az letters = true ∧
    (1 ≤ String.length digits ≤ 4)%nat ∧ re.all_in re.digit digits = true.
Proof.
  unfold UNIType_ok, re.fullmatch, UNIType_pattern.
  cbn [fold_right re.cls re.lo re.hi].
  rewrite rep_spec. split.
  - intros (a & b & -> & Hla & Ha & Hb).
    apply rep_spec in Hb as (d & e & -> & Hld & Hd & He).
    destruct e; [|discriminate He].
    exists a, d. rewrite append_empty_r in *. auto.
  - intros (a & d & -> & Hla & Ha & Hld & Hd).
    exists a, d. repeat split; try tauto.
    apply rep_spec. exists d, "". rewrite append_empty_r. auto.
Qed.

Lemma req_uni_ok (d : gmap string value) (k s : string) :
  req_uni d k = Some s → UNIType_ok s = true.
Proof.
  unfold req_uni. destruct (req_str atom_of d k) as [s'|]; simpl; [|discriminate].
  destruct (UNIType_ok s') eqn:Hok; [|discriminate]. congruence.
Qed.

Lemma upd_field_uni_ok (d : gmap string value) (k x : string) :
  upd_field parse_uni d k = Some (Some (Some x)) → UNIType_ok x = true.
Proof.
  unfold upd_field, parse_uni, parse_str.
  destruct (d !! k) as [[[]|]|]; simpl; try discriminate.
  destruct (UNIType_ok s) eqn:Hok; simpl; [|discriminate]. congruence.
Qed.

(** C9. [abc1234] matches the UNI pattern and [ABCD1], [ab12345] and [a1] do
    not. A [StudentCreate] that validates has a [uni] that matches; a
    [StudentUpdate] that validates and sets [uni] to a string has one that
    matches; and a payload whose [uni] is a string off the pattern validates
    as neither. *)
Theorem uni_pattern_enforced :
  UNIType_ok "abc1234" = true ∧
  UNIType_ok "ABCD1" = false ∧
  UNIType_ok "ab12345" = false ∧
  UNIType_ok "a1" = false ∧
  (∀ ok d s, StudentCreate_init ok d = Some s → UNIType_ok (uni s) = true) ∧
  (∀ ok d u x, StudentUpdate_init ok d = Some u → u_uni u = Some (Some x) →
     UNIType_ok x = true) ∧
  (∀ ok d x, d !! "uni" = Some (Atom (SStr x)) → UNIType_ok x = false →
     StudentCreate_init ok d = None ∧ StudentUpdate_init ok d = None).
Proof.
  do 4 (split; [vm_compute; reflexivity|]).
  split; [|split].
  - intros ok d s. unfold StudentCreate_init, StudentBase_init.
    destruct (req_uni d "uni") as [un|] eqn:Hu; simpl; [|discriminate].
    apply req_uni_ok in Hu. intros H.
    repeat match type of H with
    | mbind _ ?m = _ => destruct m; simpl in H; [|discriminate H]
    end.
    injection H as <-. exact Hu.
  - intros ok d u x. unfold StudentUpdate_init.
    destruct (upd_field parse_uni d "uni") as [un|] eqn:Hu; simpl; [|discriminate].
    intros H.
    repeat match type of H with
    | mbind _ ?m = _ => destruct m; simpl in H; [|discriminate H]
    end.
    injection H as <-. simpl. intros ->. apply (upd_field_uni_ok d "uni"), Hu.
  - intros ok d x Hd Hbad. split.
    + unfold StudentCreate_init, StudentBase_init, req_uni, req_str, field.
      rewrite Hd. simpl. rewrite Hbad. reflexivity.
    + assert (Hf : upd_field parse_uni d "uni" = None).
      { unfold upd_field, parse_uni. rewrite Hd. simpl. rewrite Hbad. reflexivity. }
      unfold StudentUpdate_init. rewrite Hf. reflexivity.
Qed.

(** The payload [ada], and the update of her [uni] to [ab1234] and to
    [ab12345]. *)
Lemma uni_pattern_enforced_witness :
  (StudentCreate_init has_at (StudentBase_model_dump ada) = Some ada ∧
   UNIType_ok (uni ada) = true) ∧
  (∃ u, StudentUpdate_init has_at {["uni" := Atom (SStr "ab1234")]} = Some u ∧
        u_uni u = Some (Some "ab1234") ∧ UNIType_ok "ab1234" = true) ∧
  (StudentCreate_init has_at
     (<["uni" := Atom (SStr "ab12345")]> (StudentBase_model_dump ada)) = None ∧
   StudentUpdate_init has_at {["uni" := Atom (SStr "ab12345")]} = None).
Proof.
  destruct uni_pattern_enforced as (_ & _ & _ & _ & Hc & Hu & Hbad).
  split; [|split].
  - assert (Hv : StudentCreate_init has_at (StudentBase_model_dump ada) = Some ada)
      by (vm_compute; reflexivity).
    split; [exact Hv | exact (Hc has_at _ ada Hv)].
  - destruct (StudentUpdate_init has_at {["uni" := Atom (SStr "ab1234")]}) as [u|] eqn:Hv;
      [|vm_compute in Hv; discriminate Hv].
    exists u. split; [reflexivity|].
    assert (Hx : u_uni u = Some (Some "ab1234"))
      by (vm_compute in Hv; injection Hv as <-; reflexivity).
    split; [exact Hx | exact (Hu has_at _ u "ab1234" Hv Hx)].
  - split.
    + apply (Hbad has_at _ "ab12345"); vm_compute; reflexivity.
    + apply (Hbad has_at {["uni" := Atom (SStr "ab12345")]} "ab12345");
        vm_compute; reflexivity.
Defined.

End uni_properties.

(** * Further properties of the handlers *)

(** ** More on insertion-ordered dictionaries *)

Section odict_more.
Context {K V : Type} `{EqDecision K}.
Implicit Types (k : K) (v : V) (d : odict K V).

(** Where a stored key sits: [oset] rewrites that entry and nothing else. *)
Lemma oset_present k v v0 d :
  oget k d = Some v0 →
  ∃ pre post, d = (pre ++ (k, v0) :: post)%list ∧
              oset k v d = (pre ++ (k, v) :: post)%list.
Proof.
  induction d as [|[k' v'] d IH]; simpl; [discriminate|].
  destruct (decide (k' = k)) as [->|Hne].
  - intros [= ->]. exists [], d. split; reflexivity.
  - intros Hd. destruct (IH Hd) as (pre & post & -> & ->).
    exists ((k', v') :: pre), post. split; reflexivity.
Qed.

Lemma okeys_oset_present k v d :
  is_Some (oget k d) → okeys (oset k v d) = okeys d.
Proof.
  intros [v0 Hd]. destruct (oset_present k v v0 d Hd) as (pre & post & -> & ->).
  unfold okeys. rewrite !map_app. reflexivity.
Qed.

Lemma oget_oset_inv k k' v v' d :
  oget k' (oset k v d) = Some v' →
  (k' = k ∧ v' = v) ∨ (k' ≠ k ∧ oget k' d = Some v').
Proof.
  destruct (decide (k = k')) as [<-|Hne].
  - rewrite oget_oset_eq. intros [= <-]. left. split; reflexivity.
  - rewrite oget_oset_ne by exact Hne. intros Hd. right. split; congruence.
Qed.

Lemma oget_odel_inv k k' v' d :
  oget k' (odel k d) = Some v' → k' ≠ k ∧ oget k' d = Some v'.
Proof.
  destruct (decide (k = k')) as [<-|Hne].
  - rewrite oget_odel_eq. discriminate.
  - rewrite oget_odel_ne by exact Hne. intros Hd. split; congruence.
Qed.

Lemma okeys_odel_subset k k' d : k' ∈ okeys (odel k d) → k' ∈ okeys d.
Proof.
  unfold okeys. induction d as [|[k0 v0] d IH]; simpl; [tauto|].
  destruct (decide (k0 = k)); simpl.
  - intros Hin. apply elem_of_cons. right. apply IH, Hin.
  - intros Hin. apply elem_of_cons in Hin as [->|Hin]; apply elem_of_cons; auto.
Qed.

Lemma okeys_odel_NoDup k d : NoDup (okeys d) → NoDup (okeys (odel k d)).
Proof.
  induction d as [|[k0 v0] d IH]; simpl; intros Hnd; [exact Hnd|].
  apply NoDup_cons in Hnd as [Hk0 Hnd].
  destruct (decide (k0 = k)); simpl; [apply IH, Hnd|].
  apply NoDup_cons. split; [|apply IH, Hnd].
  intros Hin. apply Hk0. apply (okeys_odel_subset k). exact Hin.
Qed.

End odict_more.

(** ** Creating, reading and listing courses *)

Section course_store_properties.
Import course student main examples.

(** X1. After [create_course] with an identifier that is not yet a key,
    [get_course] with that identifier returns the created record; every
    other identifier reads as before; the student store is untouched; and
    a second [create_course] that draws the same identifier signals
    Conflict and leaves the stores as they are. *)
Theorem create_course_then_get (i : UUID) (t : datetime) (c : CourseCreate) (st : State) :
  oget i (courses st) = None →
  let r := {| course.base := c; course.id := i;
              course.created_at := t; course.updated_at := t |} in
  let st' := (create_course i t c st).2 in
  get_course i st' = Return r ∧
  (∀ j, j ≠ i → get_course j st' = get_course j st) ∧
  students st' = students st ∧
  (∀ t' c', create_course i t' c' st'
            = (Raise (HTTPException 400 "Course with this ID already exists"), st')).
Proof.
  intros Hfresh r st'. subst st'.
  rewrite (create_course_fresh i t c st Hfresh). simpl.
  split; [|split; [|split]].
  - unfold get_course, omem, getitem. simpl. rewrite oget_oset_eq. reflexivity.
  - intros j Hj. unfold get_course, omem, getitem. simpl.
    rewrite oget_oset_ne by congruence. reflexivity.
  - reflexivity.
  - intros t' c'. apply create_course_collision. simpl.
    rewrite oget_oset_eq. eauto.
Qed.

Lemma create_course_then_get_witness :
  get_course 9%N (create_course 9%N 2000 cloud_computing one_course).2
  = Return (cloud_computing_read 9%N 2000) ∧
  get_course 7%N (create_course 9%N 2000 cloud_computing one_course).2
  = Return (cloud_computing_read 7%N 1000).
Proof.
  destruct (create_course_then_get 9%N 2000 cloud_computing one_course)
    as (Hget & Hother & _ & _); [reflexivity|].
  split; [exact Hget|].
  rewrite Hother by discriminate. reflexivity.
Defined.

(** X2. [list_courses] without parameters returns every stored course in
    the order of insertion, and a course created under a fresh identifier
    is listed last, after the courses that were there. *)
Theorem list_courses_insertion_order :
  (∀ st, list_courses None None None None None None None st
         = Return (ovalues (courses st))) ∧
  (∀ i t c st, oget i (courses st) = None →
     list_courses None None None None None None None (create_course i t c st).2
     = Return (ovalues (courses st)
               ++ [ {| course.base := c; course.id := i;
                       course.created_at := t; course.updated_at := t |} ])%list).
Proof.
  split; [reflexivity|].
  intros i t c st Hfresh.
  rewrite (create_course_fresh i t c st Hfresh). simpl.
  change (Return (ovalues (oset i {| course.base := c; course.id := i;
                       course.created_at := t; course.updated_at := t |} (courses st)))
          = Return (ovalues (courses st)
               ++ [ {| course.base := c; course.id := i;
                       course.created_at := t; course.updated_at := t |} ])%list).
  rewrite ovalues_oset_fresh by exact Hfresh. reflexivity.
Qed.

Lemma list_courses_insertion_order_witness :
  list_courses None None None None None None None
    (create_course 3%N 2000 cloud_computing one_course).2
  = Return [cloud_computing_read 7%N 1000; cloud_computing_read 3%N 2000].
Proof.
  destruct list_courses_insertion_order as [_ Hlast].
  rewrite (Hlast 3%N 2000 cloud_computing one_course) by reflexivity.
  reflexivity.
Defined.

End course_store_properties.

(** ** More on the partial update of a course *)

Section course_update_properties.
Import course student main overlay server examples.

Lemma pick_req_None {T} (x : option (option T)) (old : T) :
  pick_req x old = None ↔ x = Some None.
Proof. destruct x as [[v|]|]; simpl; split; congruence. Qed.

Lemma pick_req_not_null {T} `{EqDecision T} (x : option (option T)) (old : T) :
  bool_decide (x = Some None) = false → ∃ v, pick_req x old = Some v.
Proof.
  intros Hx. apply bool_decide_eq_false in Hx.
  destruct x as [[v|]|]; simpl; [eauto | congruence | eauto].
Qed.

Lemma takes_req_pick {T} (x : option (option T)) (old new : T) :
  takes_req x old new → pick_req x new = Some new.
Proof. destruct x as [v|]; simpl; [intros ->|]; reflexivity. Qed.

Lemma pick_opt_twice {T} (x : option (option T)) (old : option T) :
  pick_opt x (pick_opt x old) = pick_opt x old.
Proof. destruct x; reflexivity. Qed.

(** The overlay fails exactly when a required field is set to null. *)
Lemma CourseBase_overlay_nulls (u : CourseUpdate) (old : CourseBase) :
  CourseBase_overlay u old = None ↔ nulls_required u = true.
Proof.
  split.
  - intros Hnone. destruct (nulls_required u) eqn:Hn; [reflexivity|exfalso].
    unfold nulls_required in Hn. repeat apply orb_false_elim in Hn as [Hn ?].
    revert Hnone. unfold CourseBase_overlay.
    repeat match goal with
    | H : bool_decide (?x = Some None) = false |- context [pick_req ?x ?o] =>
        let v := fresh "v" in let E := fresh "E" in
        destruct (pick_req_not_null x o H) as [v E]; rewrite E; clear H
    end.
    simpl. discriminate.
  - unfold nulls_required. rewrite !orb_true_iff, !bool_decide_eq_true.
    unfold CourseBase_overlay.
    intros Hn. repeat destruct Hn as [Hn|Hn]; rewrite Hn; simpl;
      repeat (first [reflexivity | destruct (pick_req _ _); simpl]).
Qed.

(** X3. [update_course] has three outcomes. The identifier is not stored:
    NotFound, nothing written. The identifier is stored and the payload
    sets one of the ten required fields to null: the validation of the
    Read record fails and nothing is written. Otherwise the handler
    returns a record and stores it under the identifier. *)
Theorem update_course_outcomes (now : datetime) (i : UUID) (u : CourseUpdate) (st : State) :
  (oget i (courses st) = None →
   update_course now i u st = (Raise (HTTPException 404 "Course not found"), st)) ∧
  (is_Some (oget i (courses st)) → nulls_required u = true →
   update_course now i u st = (Raise ValidationError, st)) ∧
  (is_Some (oget i (courses st)) → nulls_required u = false →
   ∃ r, update_course now i u st = (Return r, set_courses (oset i r (courses st)) st)).
Proof.
  split; [|split].
  - intros Hi. apply omem_false in Hi. unfold update_course. rewrite Hi. reflexivity.
  - intros [old Hi] Hn. rewrite (update_course_stored now i u st old Hi).
    apply (CourseBase_overlay_nulls u old) in Hn. rewrite Hn. reflexivity.
  - intros [old Hi] Hn. rewrite (update_course_stored now i u st old Hi).
    destruct (CourseBase_overlay u old) as [b|] eqn:Hb.
    + eexists. reflexivity.
    + apply CourseBase_overlay_nulls in Hb. congruence.
Qed.

Lemma update_course_outcomes_witness :
  update_course 2000 8%N days_mw one_course
  = (Raise (HTTPException 404 "Course not found"), one_course) ∧
  update_course 2000 7%N
    {| u_department_code := None; u_course_code := None; u_title := Some None;
       u_instructor := None; u_days := None; u_start_time := None;
       u_end_time := None; u_location := None; u_size := None; u_credit := None;
       u_section := None; u_enrollment := None |} one_course
  = (Raise ValidationError, one_course) ∧
  (∃ r, update_course 2000 7%N days_mw one_course
        = (Return r, set_courses (oset 7%N r (courses one_course)) one_course)).
Proof.
  split; [|split].
  - apply update_course_outcomes. reflexivity.
  - apply update_course_outcomes; [eexists; reflexivity | reflexivity].
  - apply update_course_outcomes; [eexists; reflexivity | reflexivity].
Defined.

(** X4. A successful [update_course] rewrites the record where it sits: the
    listing keeps its order and its length with the new record in the
    place of the old one, the keys are the same, every other identifier
    reads as before, and the student store is untouched. *)
Theorem update_course_in_place (now : datetime) (i : UUID) (u : CourseUpdate)
    (st st' : State) (old r' : CourseRead) :
  oget i (courses st) = Some old →
  update_course now i u st = (Return r', st') →
  (∃ before after,
     ovalues (courses st) = (before ++ old :: after)%list ∧
     ovalues (courses st') = (before ++ r' :: after)%list) ∧
  okeys (courses st') = okeys (courses st) ∧
  (∀ j, j ≠ i → oget j (courses st') = oget j (courses st)) ∧
  students st' = students st.
Proof.
  intros Hi Hup. rewrite (update_course_stored now i u st old Hi) in Hup.
  destruct (CourseBase_overlay u old) as [b|]; [|discriminate Hup].
  simpl in Hup. injection Hup as <- <-. simpl.
  split; [|split; [|split]].
  - destruct (oset_present i
                {| course.base := b; course.id := course.id old;
                   course.created_at := course.created_at old;
                   course.updated_at := now |} old (courses st) Hi)
      as (pre & post & Hd & Hs).
    exists (ovalues pre), (ovalues post). rewrite Hs, Hd.
    unfold ovalues. rewrite !map_app. split; reflexivity.
  - apply okeys_oset_present. eauto.
  - intros j Hj. apply oget_oset_ne. congruence.
  - reflexivity.
Qed.

Lemma update_course_in_place_witness :
  ∃ r' st',
    update_course 2000 7%N days_mw one_course = (Return r', st') ∧
    okeys (courses st') = [7%N] ∧
    ovalues (courses st') = [r'].
Proof.
  destruct (update_course 2000 7%N days_mw one_course) as [[r'|e] st'] eqn:Hup;
    [|vm_compute in Hup; discriminate Hup].
  exists r', st'. split; [reflexivity|].
  destruct (update_course_in_place 2000 7%N days_mw one_course st'
              (cloud_computing_read 7%N 1000) r' eq_refl Hup)
    as ((before & after & Hb & Ha) & Hk & _ & _).
  split; [exact Hk|].
  destruct before as [|x before]; simpl in Hb.
  - injection Hb as <-. exact Ha.
  - injection Hb as _ Hb. destruct before; discriminate Hb.
Defined.

(** X5. The empty payload is a valid update of a stored course: the handler
    returns the stored record with [updated_at] set to the current time
    and every other field as it was. *)
Theorem update_course_no_field (now : datetime) (i : UUID) (st : State) (old : CourseRead) :
  oget i (courses st) = Some old →
  let r := {| course.base := old; course.id := course.id old;
              course.created_at := course.created_at old;
              course.updated_at := now |} in
  update_course now i no_field st = (Return r, set_courses (oset i r (courses st)) st).
Proof.
  intros Hi r. rewrite (update_course_stored now i no_field st old Hi).
  destruct old as [[dc cc ti ins da s e lo sz cr se enr] oi ca ua]. reflexivity.
Qed.

Lemma update_course_no_field_witness :
  update_course 2000 7%N no_field one_course
  = (Return {| course.base := cloud_computing; course.id := 7%N;
               course.created_at := 1000; course.updated_at := 2000 |},
     {| students := [];
        courses := [(7%N, {| course.base := cloud_computing; course.id := 7%N;
                             course.created_at := 1000;
                             course.updated_at := 2000 |})] |}).
Proof.
  apply (update_course_no_field 2000 7%N one_course (cloud_computing_read 7%N 1000)).
  reflexivity.
Defined.

(** X6. Sending the same payload a second time changes nothing but
    [updated_at]: after a successful [update_course], the same update
    succeeds again and returns the same fields, the same [id] and the
    same [created_at]. *)
Theorem update_course_twice (t1 t2 : datetime) (i : UUID) (u : CourseUpdate)
    (st st1 : State) (r1 : CourseRead) :
  is_Some (oget i (courses st)) →
  update_course t1 i u st = (Return r1, st1) →
  update_course t2 i u st1
  = (Return {| course.base := r1; course.id := course.id r1;
               course.created_at := course.created_at r1;
               course.updated_at := t2 |},
     set_courses (oset i {| course.base := r1; course.id := course.id r1;
                            course.created_at := course.created_at r1;
                            course.updated_at := t2 |} (courses st1)) st1).
Proof.
  intros [old Hi] Hup. rewrite (update_course_stored t1 i u st old Hi) in Hup.
  destruct (CourseBase_overlay u old) as [b|] eqn:Hb; [|discriminate Hup].
  simpl in Hup. injection Hup as <- <-.
  rewrite (update_course_stored t2 i u _
             {| course.base := b; course.id := course.id old;
                course.created_at := course.created_at old;
                course.updated_at := t1 |})
    by (simpl; apply oget_oset_eq).
  simpl.
  assert (Hagain : CourseBase_overlay u b = Some b).
  { apply CourseBase_overlay_applied in Hb.
    destruct Hb as (H1 & H2 & H3 & H4 & H5 & H6 & H7 & H8 & H9 & H10 & H11 & H12).
    unfold CourseBase_overlay.
    rewrite (takes_req_pick _ _ _ H1), (takes_req_pick _ _ _ H2),
      (takes_req_pick _ _ _ H3), (takes_req_pick _ _ _ H4),
      (takes_req_pick _ _ _ H5), (takes_req_pick _ _ _ H6),
      (takes_req_pick _ _ _ H7), (takes_req_pick _ _ _ H8),
      (takes_req_pick _ _ _ H9), (takes_req_pick _ _ _ H10).
    simpl. f_equal. destruct b; simpl in *. f_equal.
    - destruct (u_section u); simpl in *; congruence.
    - destruct (u_enrollment u); simpl in *; congruence. }
  rewrite Hagain. reflexivity.
Qed.

Lemma update_course_twice_witness :
  ∃ r1 st1,
    update_course 2000 7%N days_mw one_course = (Return r1, st1) ∧
    update_course 3000 7%N days_mw st1
    = (Return {| course.base := r1; course.id := 7%N;
                 course.created_at := 1000; course.updated_at := 3000 |},
       set_courses (oset 7%N {| course.base := r1; course.id := 7%N;
                                course.created_at := 1000;
                                course.updated_at := 3000 |} (courses st1)) st1).
Proof.
  destruct (update_course 2000 7%N days_mw one_course) as [[r1|e] st1] eqn:Hup;
    [|vm_compute in Hup; discriminate Hup].
  exists r1, st1. split; [reflexivity|].
  pose proof (update_course_twice 2000 3000 7%N days_mw one_course st1 r1
                (ex_intro _ _ eq_refl) Hup) as H2.
  vm_compute in Hup. injection Hup as <- <-. exact H2.
Defined.

End course_update_properties.

(** ** More on the list endpoints *)

Section list_more.
Import course student main conditions server examples.

Lemma comprehension_sublist {A} (c : A → outcome bool) (l r : list A) :
  comprehension c l = Return r → r `sublist_of` l.
Proof.
  revert r. induction l as [|x l IH]; simpl; intros r.
  - intros [= <-]. constructor.
  - destruct (c x) as [b|e]; [|discriminate].
    destruct (comprehension c l) as [r0|e]; [|discriminate].
    intros [= <-]. destruct b.
    + apply sublist_skip, IH. reflexivity.
    + apply sublist_cons, IH. reflexivity.
Qed.

Lemma step_sublist {A} (param : option string) (c : string → A → outcome bool)
    (l r : list A) :
  step param c l = Return r → r `sublist_of` l.
Proof.
  destruct param as [q|]; simpl.
  - apply comprehension_sublist.
  - intros [= <-]. reflexivity.
Qed.

Lemma run_sublist {A} (steps : list (list A → outcome (list A))) (l r : list A) :
  Forall (λ f, ∀ l r, f l = Return r → r `sublist_of` l) steps →
  run steps l = Return r → r `sublist_of` l.
Proof.
  intros Hs. revert l r. induction Hs as [|f steps Hf _ IH]; intros l r; simpl.
  - intros [= <-]. reflexivity.
  - destruct (f l) as [l1|e] eqn:Hfl; simpl; [|discriminate].
    intros Hr. transitivity l1; [apply IH, Hr | apply Hf, Hfl].
Qed.

(** X7. Whatever the parameters, a list endpoint that returns, returns
    stored records only, each at most once per stored copy and in the
    order of the store: the result is a sublist of the stored values. *)
Theorem list_endpoints_return_stored :
  (∀ dc cc ti ins da s e st l,
     list_courses dc cc ti ins da s e st = Return l →
     l `sublist_of` ovalues (courses st)) ∧
  (∀ un fn ln ma gr em ph bd dc ins st l,
     list_students un fn ln ma gr em ph bd dc ins st = Return l →
     l `sublist_of` ovalues (students st)).
Proof.
  split.
  - intros dc cc ti ins da s e st l. apply run_sublist.
    unfold list_courses_steps.
    repeat (apply Forall_cons; split; [intros ? ?; apply step_sublist|]).
    apply Forall_nil. exact I.
  - intros un fn ln ma gr em ph bd dc ins st l. apply run_sublist.
    unfold list_students_steps.
    repeat (apply Forall_cons; split; [intros ? ?; apply step_sublist|]).
    apply Forall_nil. exact I.
Qed.

Lemma list_endpoints_return_stored_witness :
  [cloud_computing_read 7%N 1000] `sublist_of` ovalues (courses one_course) ∧
  [ada_read 7%N 1000] `sublist_of` ovalues (students one_student).
Proof.
  destruct list_endpoints_return_stored as [Hc Hs]. split.
  - apply (Hc None None (Some "cloud") None None None None). vm_compute. reflexivity.
  - apply (Hs (Some "ABC1234") None None None None None None None (Some "coms") None).
    vm_compute. reflexivity.
Defined.

(** X8. Without [course_code], a stored course is in the answer of
    [list_courses] exactly when it satisfies every supplied condition, and
    without [instructor] the same holds of [list_students]: what is kept
    satisfies the conditions and what is left out violates one. *)
Theorem list_keeps_exactly_the_matches :
  (∀ dc ti ins da s e st c,
     ∃ l, list_courses dc None ti ins da s e st = Return l ∧
          (c ∈ l ↔ c ∈ ovalues (courses st) ∧
                   forallb (λ p, p c) (course_conditions dc ti ins da s e) = true)) ∧
  (∀ un fn ln ma gr em ph bd dc st x,
     ∃ l, list_students un fn ln ma gr em ph bd dc None st = Return l ∧
          (x ∈ l ↔ x ∈ ovalues (students st) ∧
                   forallb (λ p, p x) (student_conditions un fn ln ma gr em ph bd dc) = true)).
Proof.
  split.
  - intros dc ti ins da s e st c. eexists. split; [apply list_courses_no_course_code|].
    rewrite !list_elem_of_In. apply filter_In.
  - intros un fn ln ma gr em ph bd dc st x. eexists.
    split; [apply list_students_no_instructor|].
    rewrite !list_elem_of_In. apply filter_In.
Qed.

Lemma comprehension_ext {A} (c c' : A → outcome bool) (l : list A) :
  (∀ x, c x = c' x) → comprehension c l = comprehension c' l.
Proof.
  intros Hc. induction l as [|x l IH]; simpl; [reflexivity|].
  rewrite Hc, IH. reflexivity.
Qed.

Lemma step_lower {A} (f : string → A → bool) (q q' : option string) (l : list A) :
  lower_param q = lower_param q' →
  step q (λ q x, Return (f (pystr.lower q) x)) l
  = step q' (λ q x, Return (f (pystr.lower q) x)) l.
Proof.
  destruct q as [a|], q' as [b|]; simpl; try discriminate; [|reflexivity].
  intros [= Hab]. apply comprehension_ext. intros x. rewrite Hab. reflexivity.
Qed.

(** X9. [list_courses] reads [department_code], [title], [instructor],
    [days], [start_time] and [end_time] in lower case only: two requests
    whose parameters differ in the case of their letters have the same
    outcome on every store. *)
Theorem list_courses_ignores_case (dc dc' ti ti' ins ins' da da' s s' e e' : option string)
    (cc : option string) (st : State) :
  lower_param dc = lower_param dc' → lower_param ti = lower_param ti' →
  lower_param ins = lower_param ins' → lower_param da = lower_param da' →
  lower_param s = lower_param s' → lower_param e = lower_param e' →
  list_courses dc cc ti ins da s e st = list_courses dc' cc ti' ins' da' s' e' st.
Proof.
  intros Hdc Hti Hins Hda Hs He.
  unfold list_courses, list_courses_steps. simpl.
  change (step dc course_department_code)
    with (step dc (λ q (c : CourseRead),
            Return ((λ q c, pystr.eqb (pystr.lower (department_code c)) q) (pystr.lower q) c))).
  rewrite (step_lower (λ q (c : CourseRead), pystr.eqb (pystr.lower (department_code c)) q)
             dc dc' _ Hdc).
  destruct (step dc' _ _) as [l1|?]; simpl; [|reflexivity].
  destruct (step cc _ _) as [l2|?]; simpl; [|reflexivity].
  rewrite (step_lower (λ q (c : CourseRead), pystr.contains q (pystr.lower (title c)))
             ti ti' _ Hti).
  destruct (step ti' _ _) as [l3|?]; simpl; [|reflexivity].
  rewrite (step_lower (λ q (c : CourseRead), pystr.contains q (pystr.lower (instructor c)))
             ins ins' _ Hins).
  destruct (step ins' _ _) as [l4|?]; simpl; [|reflexivity].
  rewrite (step_lower (λ q (c : CourseRead), pystr.contains q (pystr.lower (days c)))
             da da' _ Hda).
  destruct (step da' _ _) as [l5|?]; simpl; [|reflexivity].
  rewrite (step_lower (λ q (c : CourseRead), pystr.eqb (pystr.lower (start_time c)) q)
             s s' _ Hs).
  destruct (step s' _ _) as [l6|?]; simpl; [|reflexivity].
  rewrite (step_lower (λ q (c : CourseRead), pystr.eqb (pystr.lower (end_time c)) q)
             e e' _ He).
  reflexivity.
Qed.

Lemma list_courses_ignores_case_witness :
  list_courses (Some "coms") None None (Some "FERGUSON") None (Some "1:10pm") None one_course
  = list_courses (Some "COMS") None None (Some "ferguson") None (Some "1:10PM") None one_course.
Proof.
  apply list_courses_ignores_case; reflexivity.
Defined.

End list_more.

(** ** The stores over a run of the service *)

Section server_properties.
Import course student main server examples.

Lemma serve_students ok (r : request) (st : State) :
  students st = [] → students (serve ok r st) = [].
Proof.
  intros Hs. destruct r as [i t c|t i u|i|i t s|t i u|i]; simpl.
  - unfold create_course. destruct (omem i (courses st)); [exact Hs|].
    destruct (CourseRead_init _); exact Hs.
  - unfold update_course. destruct (negb _); [exact Hs|].
    destruct (getitem i (courses st)); [|exact Hs].
    destruct (CourseRead_init _); exact Hs.
  - unfold delete_course. destruct (negb _); [exact Hs|].
    destruct (getitem i (courses st)); exact Hs.
  - destruct (create_student_raises ok i t s st) as [e ->]. exact Hs.
  - unfold update_person, omem. rewrite Hs. simpl. exact Hs.
  - unfold delete_person, omem. rewrite Hs. simpl. exact Hs.
Qed.

Lemma serve_all_students ok (rs : list request) (st : State) :
  students st = [] → students (serve_all ok rs st) = [].
Proof.
  revert st. induction rs as [|r rs IH]; intros st Hs; simpl; [exact Hs|].
  apply IH, serve_students, Hs.
Qed.

(** X10. No run of the service ever stores a student. After any sequence
    of requests from the empty stores, [students] is empty: [list_students]
    returns the empty list for every combination of parameters, and
    [get_person], [update_person] and [delete_person] signal NotFound for
    every identifier. *)
Theorem students_stay_empty (ok : string → bool) (rs : list request) :
  let st := serve_all ok rs initial in
  students st = [] ∧
  (∀ un fn ln ma gr em ph bd dc ins,
     list_students un fn ln ma gr em ph bd dc ins st = Return []) ∧
  (∀ i, get_person i st = Raise (HTTPException 404 "Student not found")) ∧
  (∀ t i u, update_person ok t i u st
            = (Raise (HTTPException 404 "Student not found"), st)) ∧
  (∀ i, delete_person i st = (Raise (HTTPException 404 "Student not found"), st)).
Proof.
  intros st.
  assert (Hs : students st = []) by (apply serve_all_students; reflexivity).
  split; [exact Hs|]. split; [|split; [|split]].
  - intros. unfold list_students. rewrite Hs. apply run_nil_results.
    unfold list_students_steps.
    repeat (apply Forall_cons; split; [apply step_nil|]). apply Forall_nil. exact I.
  - intros i. apply get_person_absent. rewrite Hs. reflexivity.
  - intros t i u. unfold update_person, omem. rewrite Hs. reflexivity.
  - intros i. unfold delete_person, omem. rewrite Hs. reflexivity.
Qed.

Lemma serve_keyed ok (r : request) (st : State) :
  keyed_by_id st ∧ NoDup (okeys (courses st)) →
  keyed_by_id (serve ok r st) ∧ NoDup (okeys (courses (serve ok r st))).
Proof.
  intros [Hk Hnd]. destruct r as [i t c|t i u|i|i t s|t i u|i]; simpl.
  - destruct (oget i (courses st)) as [r0|] eqn:Hi.
    + rewrite create_course_collision by eauto. split; assumption.
    + rewrite (create_course_fresh i t c st Hi). simpl. split.
      * intros k r Hr. apply oget_oset_inv in Hr as [[-> ->]|[_ Hr]];
          [reflexivity | apply Hk, Hr].
      * apply okeys_oset_NoDup, Hnd.
  - destruct (oget i (courses st)) as [old|] eqn:Hi.
    + rewrite (update_course_stored t i u st old Hi).
      destruct (overlay.CourseBase_overlay u old) as [b|]; simpl; [|split; assumption].
      split.
      * intros k r Hr. apply oget_oset_inv in Hr as [[-> ->]|[_ Hr]];
          [simpl; apply Hk, Hi | apply Hk, Hr].
      * apply okeys_oset_NoDup, Hnd.
    + apply omem_false in Hi. unfold update_course. rewrite Hi. split; assumption.
  - destruct (oget i (courses st)) as [old|] eqn:Hi.
    + rewrite (delete_course_stored i old st Hi). simpl. split.
      * intros k r Hr. apply oget_odel_inv in Hr as [_ Hr]. apply Hk, Hr.
      * apply okeys_odel_NoDup, Hnd.
    + apply omem_false in Hi. unfold delete_course. rewrite Hi. split; assumption.
  - destruct (create_student_raises ok i t s st) as [e ->]. split; assumption.
  - unfold update_person. destruct (negb _); [split; assumption|].
    destruct (getitem i (students st)); [|split; assumption].
    destruct (StudentRead_init _ _); split; assumption.
  - unfold delete_person. destruct (negb _); [split; assumption|].
    destruct (getitem i (students st)); split; assumption.
Qed.

Lemma serve_all_keyed ok (rs : list request) (st : State) :
  keyed_by_id st ∧ NoDup (okeys (courses st)) →
  keyed_by_id (serve_all ok rs st) ∧ NoDup (okeys (courses (serve_all ok rs st))).
Proof.
  revert st. induction rs as [|r rs IH]; intros st Hst; simpl; [exact Hst|].
  apply IH, serve_keyed, Hst.
Qed.

(** X11. Over any run of the service from the empty stores, every course
    is stored under its own [id] (so [get_course] returns a record whose
    [id] is the identifier asked for), and no identifier is listed twice. *)
Theorem courses_keyed_by_id (ok : string → bool) (rs : list request) :
  let st := serve_all ok rs initial in
  keyed_by_id st ∧
  NoDup (okeys (courses st)) ∧
  (∀ i r, get_course i st = Return r → course.id r = i).
Proof.
  intros st.
  assert (Hinv : keyed_by_id st ∧ NoDup (okeys (courses st))).
  { apply serve_all_keyed. split; [intros k r Hr; discriminate Hr | constructor]. }
  destruct Hinv as [Hk Hnd]. split; [exact Hk|]. split; [exact Hnd|].
  intros i r. unfold get_course, getitem.
  destruct (negb _); [discriminate|].
  destruct (oget i (courses st)) as [r0|] eqn:Hi; [|discriminate].
  intros [= <-]. apply Hk, Hi.
Qed.

Lemma courses_keyed_by_id_witness :
  ∃ r, get_course 7%N (serve_all has_at
                         [PostCourse 7%N 1000 cloud_computing;
                          PostCourse 3%N 1500 cloud_computing;
                          PatchCourse 2000 7%N days_mw] initial) = Return r ∧
       course.id r = 7%N.
Proof.
  destruct (get_course 7%N (serve_all has_at
                         [PostCourse 7%N 1000 cloud_computing;
                          PostCourse 3%N 1500 cloud_computing;
                          PatchCourse 2000 7%N days_mw] initial)) as [r|e] eqn:Hg;
    [|vm_compute in Hg; discriminate Hg].
  exists r. split; [reflexivity|].
  destruct (courses_keyed_by_id has_at
              [PostCourse 7%N 1000 cloud_computing;
               PostCourse 3%N 1500 cloud_computing;
               PatchCourse 2000 7%N days_mw]) as (_ & _ & Hid).
  apply Hid, Hg.
Defined.

End server_properties.

(** ** The nested filters of [list_students] *)

Section nested_filters.
Import course student main conditions server examples.



End nested_filters.

(** ** Dumps, constructors and strings *)

Section model_properties.
Import course student main server examples.

Lemma startswith_spec (p s : string) :
  pystr.startswith p s = true ↔ ∃ post, s = p ++ post.
Proof.
  revert s. induction p as [|a p IH]; intros s; simpl.
  - split; [intros _; exists s; reflexivity | reflexivity].
  - destruct s as [|b s]; simpl.
    + split; [discriminate | intros [post Hs]].
      rewrite append_String in Hs. discriminate Hs.
    + destruct (ascii_dec a b) as [->|Hne].
      * rewrite IH. split; intros [post Hs]; exists post.
        -- rewrite append_String, Hs. reflexivity.
        -- rewrite append_String in Hs. injection Hs as ->. reflexivity.
      * split; [discriminate | intros [post Hs]].
        rewrite append_String in Hs. injection Hs as <- _. congruence.
Qed.

Lemma contains_spec (needle hay : string) :
  pystr.contains needle hay = true ↔ ∃ pre post, hay = pre ++ needle ++ post.
Proof.
  induction hay as [|b hay IH]; simpl.
  - rewrite orb_false_r, startswith_spec. split.
    + intros [post Hs]. exists "", post. exact Hs.
    + intros (pre & post & Hs). destruct pre; [|rewrite append_String in Hs; discriminate Hs].
      rewrite append_empty in Hs. exists post. exact Hs.
  - rewrite orb_true_iff, startswith_spec, IH. split.
    + intros [[post Hs] | (pre & post & Hs)].
      * exists "", post. exact Hs.
      * exists (String b pre), post. rewrite append_String, Hs. reflexivity.
    + intros (pre & post & Hs). destruct pre as [|a pre].
      * left. exists post. exact Hs.
      * right. rewrite append_String in Hs. injection Hs as _ Hs.
        exists pre, post. exact Hs.
Qed.

(** X13. The [title], [instructor] and [days] conditions of [list_courses]
    keep a course exactly when the lower-cased parameter occurs in the
    lower-cased field as a run of consecutive characters; the empty
    parameter keeps every course. *)
Theorem substring_conditions (q : string) (c : CourseRead) :
  (course_title q c = Return true ↔
   ∃ pre post, pystr.lower (title c) = pre ++ pystr.lower q ++ post) ∧
  (course_instructor q c = Return true ↔
   ∃ pre post, pystr.lower (instructor c) = pre ++ pystr.lower q ++ post) ∧
  (course_days q c = Return true ↔
   ∃ pre post, pystr.lower (days c) = pre ++ pystr.lower q ++ post) ∧
  course_title "" c = Return true.
Proof.
  unfold course_title, course_instructor, course_days.
  repeat split; try (intros [= H]; apply contains_spec, H);
    try (intros H; apply contains_spec in H; rewrite H; reflexivity).
  simpl. destruct (pystr.lower (title c)); reflexivity.
Qed.

End model_properties.

(** ** Dates and the [birth_date] filter *)

Section date_properties.
Import course student main server examples.

Lemma digit_char_inj (a b : N) :
  (a < 10)%N → (b < 10)%N → ascii_of_N (48 + a) = ascii_of_N (48 + b) → a = b.
Proof.
  intros Ha Hb Hab. apply (f_equal N_of_ascii) in Hab.
  rewrite !N_ascii_embedding in Hab by lia. lia.
Qed.

(** [zfill] writes the [w] low digits in front of the accumulator: both can
    be read back. *)
Lemma zfill_inj (w : nat) (n m : N) (s s' : string) :
  pystr.zfill w n s = pystr.zfill w m s' →
  (n mod 10 ^ N.of_nat w = m mod 10 ^ N.of_nat w)%N ∧ s = s'.
Proof.
  revert n m s s'. induction w as [|w IH]; intros n m s s'; simpl pystr.zfill.
  - intros ->. split; [|reflexivity]. rewrite !N.mod_1_r. reflexivity.
  - intros H. apply IH in H as [Hhi [= Hlo ->]]. split; [|reflexivity].
    apply digit_char_inj in Hlo; try (apply N.mod_lt; lia).
    rewrite Nat2N.inj_succ, N.pow_succ_r'.
    rewrite !N.Div0.mod_mul_r. rewrite Hlo, Hhi. reflexivity.
Qed.

Lemma zfill_length (w : nat) (n : N) (s : string) :
  String.length (pystr.zfill w n s) = (w + String.length s)%nat.
Proof.
  revert n s. induction w as [|w IH]; intros n s; simpl; [reflexivity|].
  rewrite IH. simpl. lia.
Qed.

Lemma String_tail_inj (a : ascii) (x y : string) : String a x = String a y → x = y.
Proof. intros H. congruence. Qed.

Lemma length_String (a : ascii) (s : string) :
  String.length (String a s) = S (String.length s).
Proof. reflexivity. Qed.

Lemma date_str_inj (d d' : date) :
  date_in_range d → date_in_range d' → date_str d = date_str d' → d = d'.
Proof.
  intros (Hy & Hm & Hd) (Hy' & Hm' & Hd'). unfold date_str.
  rewrite !append_String, !append_empty.
  intros H. apply zfill_inj in H as [Hyy H]. apply String_tail_inj in H.
  apply zfill_inj in H as [Hmm H]. apply String_tail_inj in H.
  apply zfill_inj in H as [Hdd _].
  change (10 ^ N.of_nat 4)%N with 10000%N in Hyy.
  change (10 ^ N.of_nat 2)%N with 100%N in Hmm, Hdd.
  rewrite !N.mod_small in Hyy, Hmm, Hdd by assumption.
  destruct d, d'. simpl in *. congruence.
Qed.

(** X14. [str] of a date is ten characters long, [YYYY-MM-DD], and two
    dates with the same text are the same date. So the [birth_date]
    condition of [list_students], given the text of a date, keeps exactly
    the students born on that date, and given any text of another length
    (as [None]) keeps no student that has a birth date. *)
Theorem birth_date_condition (d : date) (s : StudentRead) :
  date_in_range d →
  (∀ d0, birth_date s = Some d0 → date_in_range d0) →
  String.length (date_str d) = 10%nat ∧
  student_birth_date (date_str d) s = Return (bool_decide (birth_date s = Some d)) ∧
  (∀ q, String.length q ≠ 10%nat → is_Some (birth_date s) →
        student_birth_date q s = Return false) ∧
  (birth_date s = None → student_birth_date "None" s = Return true).
Proof.
  intros Hd Hs.
  assert (Hlen : ∀ x, String.length (date_str x) = 10%nat).
  { intros x. unfold date_str. rewrite !append_String, !append_empty.
    repeat (rewrite ?zfill_length, ?length_String). reflexivity. }
  split; [apply Hlen|]. split; [|split].
  - unfold student_birth_date, pystr.eqb. f_equal.
    destruct (birth_date s) as [d0|] eqn:Hb; simpl.
    + apply bool_decide_ext. split.
      * intros H. f_equal. apply date_str_inj; [apply Hs; reflexivity | exact Hd | exact H].
      * intros [= ->]. reflexivity.
    + apply bool_decide_eq_false_2. intros H. apply (f_equal String.length) in H. rewrite Hlen in H. discriminate H.
  - intros q Hq [d0 Hb]. unfold student_birth_date, pystr.eqb. rewrite Hb. simpl.
    rewrite bool_decide_eq_false_2; [reflexivity|].
    intros H. apply Hq. rewrite <- H. apply Hlen.
  - intros Hb. unfold student_birth_date. rewrite Hb. reflexivity.
Qed.

Lemma birth_date_condition_witness :
  date_str (mkdate 1815 12 10) = "1815-12-10" ∧
  student_birth_date "1815-12-10" (ada_read 7%N 1000) = Return true ∧
  student_birth_date "None" (ada_read 7%N 1000) = Return false.
Proof.
  assert (Hr : date_in_range (mkdate 1815 12 10)) by (repeat split; reflexivity).
  assert (Hs : ∀ d0, birth_date (ada_read 7%N 1000) = Some d0 → date_in_range d0)
    by (intros d0 [= <-]; exact Hr).
  destruct (birth_date_condition (mkdate 1815 12 10) (ada_read 7%N 1000) Hr Hs)
    as (_ & Hsame & Hother & _).
  split; [reflexivity|]. split.
  - exact Hsame.
  - apply Hother; [discriminate | eexists; reflexivity].
Defined.

End date_properties.

(** ** Required and optional fields *)

Section field_properties.
Import course student main server examples.

(** X15. The ten fields that [CourseBase] declares with [...] are required:
    when the keyword arguments miss one of them, or hold [None] for it, the
    constructor fails. [section] and [enrollment] default to [None]: a
    record built from arguments without them has [None] there. *)
Theorem CourseBase_required_fields (d : gmap string scalar) :
  (∀ k, k ∈ ["department_code"; "course_code"; "title"; "instructor"; "days";
             "start_time"; "end_time"; "location"; "size"; "credit"] →
        d !! k = None ∨ d !! k = Some SNone →
        CourseBase_init Some d = None) ∧
  (∀ c, CourseBase_init Some d = Some c →
        (d !! "section" = None → section c = None) ∧
        (d !! "enrollment" = None → enrollment c = None)).
Proof.
  split.
  - intros k Hk Hd.
    destruct (CourseBase_init Some d) as [c|] eqn:Hc; [exfalso|reflexivity].
    unfold CourseBase_init in Hc.
    repeat match type of Hc with
    | mbind _ ?m = _ => let E := fresh "E" in destruct m eqn:E; simpl in Hc; [|discriminate Hc]
    end.
    unfold req_str, req_int, field in *.
    repeat (apply elem_of_cons in Hk as [->|Hk]);
      try (apply elem_of_nil in Hk; contradiction);
      destruct Hd as [Hd|Hd]; rewrite Hd in *; simpl in *; congruence.
  - intros c. unfold CourseBase_init. intros H.
    repeat match type of H with
    | mbind _ ?m = _ => let E := fresh "E" in destruct m eqn:E; simpl in H; [|discriminate H]
    end.
    injection H as <-. simpl. unfold opt_str, opt_int in *.
    split; intros Hno; rewrite Hno in *; congruence.
Qed.

Lemma CourseBase_required_fields_witness :
  CourseBase_init Some (delete "title" (CourseBase_model_dump cloud_computing)) = None ∧
  CourseBase_init Some (<["size" := SNone]> (CourseBase_model_dump cloud_computing)) = None ∧
  (∃ c, CourseBase_init Some (delete "section" (CourseBase_model_dump cloud_computing))
        = Some c ∧ section c = None).
Proof.
  split; [|split].
  - destruct (CourseBase_required_fields
                (delete "title" (CourseBase_model_dump cloud_computing))) as [Hreq _].
    apply (Hreq "title"); [repeat constructor | left; reflexivity].
  - destruct (CourseBase_required_fields
                (<["size" := SNone]> (CourseBase_model_dump cloud_computing))) as [Hreq _].
    apply (Hreq "size"); [repeat constructor | right; reflexivity].
  - destruct (CourseBase_required_fields
                (delete "section" (CourseBase_model_dump cloud_computing))) as [_ Hdef].
    destruct (CourseBase_init Some (delete "section" (CourseBase_model_dump cloud_computing)))
      as [c|] eqn:Hc; [|vm_compute in Hc; discriminate Hc].
    exists c. split; [reflexivity|].
    apply (Hdef c eq_refl). reflexivity.
Defined.

End field_properties.

(** ** Deleting from the listing, and the two timestamps *)

Section run_properties.
Import course student main server examples.

Lemma odel_absent {V} (k : UUID) (d : odict UUID V) : k ∉ okeys d → odel k d = d.
Proof.
  unfold okeys. induction d as [|[k' v'] d IH]; simpl; [reflexivity|].
  intros Hk. apply not_elem_of_cons in Hk as [Hne Hk].
  destruct (decide (k' = k)); [congruence|]. rewrite IH by exact Hk. reflexivity.
Qed.

Lemma odel_present {V} (k : UUID) (v : V) (d : odict UUID V) :
  NoDup (okeys d) → oget k d = Some v →
  ∃ pre post, d = (pre ++ (k, v) :: post)%list ∧ odel k d = (pre ++ post)%list.
Proof.
  induction d as [|[k' v'] d IH]; simpl; [discriminate|].
  intros Hnd. apply NoDup_cons in Hnd as [Hk' Hnd].
  destruct (decide (k' = k)) as [->|Hne].
  - intros [= ->]. exists [], d. split; [reflexivity|]. apply odel_absent, Hk'.
  - intros Hd. destruct (IH Hnd Hd) as (pre & post & Hpre & Hdel).
    exists ((k', v') :: pre), post. simpl. rewrite <- Hpre, Hdel. split; reflexivity.
Qed.

(** X16. [delete_course] takes exactly the deleted record out of the
    listing: the courses before it and after it stay, in their order. The
    keys of the store are distinct, as they are over every run of the
    service. *)
Theorem delete_course_listing (i : UUID) (r : CourseRead) (st : State) :
  NoDup (okeys (courses st)) →
  oget i (courses st) = Some r →
  ∃ before after,
    list_courses None None None None None None None st
    = Return (before ++ r :: after)%list ∧
    list_courses None None None None None None None (delete_course i st).2
    = Return (before ++ after)%list.
Proof.
  intros Hnd Hi. rewrite (delete_course_stored i r st Hi). simpl.
  destruct (odel_present i r (courses st) Hnd Hi) as (pre & post & Hd & Hdel).
  exists (ovalues pre), (ovalues post).
  change (Return (ovalues (courses st)) = Return (ovalues pre ++ r :: ovalues post)%list ∧
          Return (ovalues (odel i (courses st))) = Return (ovalues pre ++ ovalues post)%list).
  rewrite Hdel, Hd. unfold ovalues. rewrite !map_app. split; reflexivity.
Qed.

Lemma delete_course_listing_witness :
  ∃ before after,
    list_courses None None None None None None None
      (create_course 3%N 2000 cloud_computing one_course).2
    = Return (before ++ cloud_computing_read 7%N 1000 :: after)%list ∧
    list_courses None None None None None None None
      (delete_course 7%N (create_course 3%N 2000 cloud_computing one_course).2).2
    = Return (before ++ after)%list.
Proof.
  apply delete_course_listing.
  - vm_compute. apply NoDup_cons. split; [|apply NoDup_singleton].
    intros Hin. apply list_elem_of_singleton in Hin. discriminate Hin.
  - reflexivity.
Defined.

Lemma stamped_until_later (t t' : datetime) (st : State) :
  (t ≤ t')%Z → stamped_until t st → stamped_until t' st.
Proof. intros Ht Hst k r Hr. destruct (Hst k r Hr). lia. Qed.

Lemma serve_stamped ok (t0 : datetime) (r : request) (st : State) :
  stamped_until t0 st →
  match stamp r with
  | Some t => (t0 ≤ t)%Z → stamped_until t (serve ok r st)
  | None => stamped_until t0 (serve ok r st)
  end.
Proof.
  intros Hst. destruct r as [i t c|t i u|i|i t s|t i u|i]; simpl.
  - intros Ht. destruct (oget i (courses st)) as [r0|] eqn:Hi.
    + rewrite create_course_collision by eauto.
      apply (stamped_until_later t0), Hst. exact Ht.
    + rewrite (create_course_fresh i t c st Hi). simpl.
      intros k r Hr. apply oget_oset_inv in Hr as [[-> ->]|[_ Hr]].
      * simpl. lia.
      * destruct (Hst k r Hr). lia.
  - intros Ht. destruct (oget i (courses st)) as [old|] eqn:Hi.
    + rewrite (update_course_stored t i u st old Hi).
      destruct (overlay.CourseBase_overlay u old) as [b|]; simpl;
        [|apply (stamped_until_later t0), Hst; exact Ht].
      intros k r Hr. apply oget_oset_inv in Hr as [[-> ->]|[_ Hr]].
      * simpl. destruct (Hst i old Hi). lia.
      * destruct (Hst k r Hr). lia.
    + apply omem_false in Hi. unfold update_course. rewrite Hi.
      apply (stamped_until_later t0), Hst. exact Ht.
  - destruct (oget i (courses st)) as [old|] eqn:Hi.
    + rewrite (delete_course_stored i old st Hi). simpl.
      intros k r Hr. apply oget_odel_inv in Hr as [_ Hr]. exact (Hst k r Hr).
    + apply omem_false in Hi. unfold delete_course. rewrite Hi. exact Hst.
  - intros Ht. destruct (create_student_raises ok i t s st) as [e ->].
    apply (stamped_until_later t0), Hst. exact Ht.
  - intros Ht. apply (stamped_until_later t0); [exact Ht|].
    unfold update_person. destruct (negb _); [exact Hst|].
    destruct (getitem i (students st)); [|exact Hst].
    destruct (StudentRead_init _ _); exact Hst.
  - unfold delete_person. destruct (negb _); [exact Hst|].
    destruct (getitem i (students st)); exact Hst.
Qed.

Lemma serve_all_stamped ok (rs : list request) (t0 : datetime) (st : State) :
  stamped_until t0 st → clock_monotone t0 rs →
  ∃ t, stamped_until t (serve_all ok rs st).
Proof.
  revert t0 st. induction rs as [|r rs IH]; intros t0 st Hst Hck; simpl.
  - exists t0. exact Hst.
  - simpl in Hck. pose proof (serve_stamped ok t0 r st Hst) as Hr.
    destruct (stamp r) as [t|].
    + destruct Hck as [Ht Hck]. apply (IH t); [apply Hr, Ht | exact Hck].
    + apply (IH t0); [exact Hr | exact Hck].
Qed.

(** X17. When the clock does not run backwards, every course in the store
    has [created_at] no later than [updated_at], over every run of the
    service from the empty stores. *)
Theorem created_before_updated (ok : string → bool) (t0 : datetime) (rs : list request) :
  clock_monotone t0 rs →
  ∀ k r, oget k (courses (serve_all ok rs initial)) = Some r →
         (course.created_at r ≤ course.updated_at r)%Z.
Proof.
  intros Hck k r Hr.
  destruct (serve_all_stamped ok rs t0 initial) as [t Hst];
    [intros k0 r0 H0; discriminate H0 | exact Hck |].
  apply (Hst k r Hr).
Qed.

Lemma created_before_updated_witness :
  ∃ r, oget 7%N (courses (serve_all has_at
                            [PostCourse 7%N 1000 cloud_computing;
                             PatchCourse 2000 7%N days_mw] initial)) = Some r ∧
       course.created_at r = 1000%Z ∧ course.updated_at r = 2000%Z ∧
       (course.created_at r ≤ course.updated_at r)%Z.
Proof.
  destruct (oget 7%N (courses (serve_all has_at
                            [PostCourse 7%N 1000 cloud_computing;
                             PatchCourse 2000 7%N days_mw] initial))) as [r|] eqn:Hr;
    [|vm_compute in Hr; discriminate Hr].
  exists r. split; [reflexivity|].
  pose proof (created_before_updated has_at 0%Z
                [PostCourse 7%N 1000 cloud_computing; PatchCourse 2000 7%N days_mw]) as Hle.
  specialize (Hle ltac:(simpl; lia) 7%N r Hr).
  vm_compute in Hr. injection Hr as <-.
  split; [reflexivity|]. split; [reflexivity | exact Hle].
Defined.

End run_properties.

(** ** The shape of a UNI *)

Section uni_shape.
Import course student main examples.

Lemma length_append (a b : string) :
  String.length (a ++ b) = (String.length a + String.length b)%nat.
Proof.
  induction a as [|x a IH]; [reflexivity|].
  rewrite append_String. simpl. rewrite IH. reflexivity.
Qed.

Lemma all_in_append (c : ascii → bool) (a b : string) :
  re.all_in c (a ++ b) = re.all_in c a && re.all_in c b.
Proof.
  induction a as [|x a IH]; [reflexivity|].
  rewrite append_String. simpl. rewrite IH. apply andb_assoc.
Qed.

(** X18. A string that [UNIType] accepts is three to seven characters
    long and made of lower-case letters and digits only; a student record
    that either Read or Create validation lets through has such a [uni]:
    three to seven characters, lower-case letters and digits only. *)
Theorem UNIType_shape (ok : string → bool) :
  (∀ s, UNIType_ok s = true →
        (3 ≤ String.length s ≤ 7)%nat ∧
        re.all_in (λ c, re.lower_az c || re.digit c) s = true) ∧
  (∀ d s, StudentBase_init ok d = Some s →
        (3 ≤ String.length (uni s) ≤ 7)%nat ∧
        re.all_in (λ c, re.lower_az c || re.digit c) (uni s) = true).
Proof.
  assert (Hshape : ∀ s, UNIType_ok s = true →
        (3 ≤ String.length s ≤ 7)%nat ∧
        re.all_in (λ c, re.lower_az c || re.digit c) s = true).
  { intros s Hs. apply UNIType_ok_spec in Hs as (l & g & -> & Hl & Hla & Hg & Hga).
    rewrite length_append, all_in_append. split; [lia|].
    apply andb_true_iff. split.
    - clear Hl. induction l as [|x l IH]; simpl in *; [reflexivity|].
      apply andb_true_iff in Hla as [Hx Hla]. rewrite Hx, (IH Hla). reflexivity.
    - clear Hg. induction g as [|x g IH]; simpl in *; [reflexivity|].
      apply andb_true_iff in Hga as [Hx Hga]. rewrite Hx, (IH Hga).
      rewrite orb_true_r. reflexivity. }
  split; [exact Hshape|].
  intros d s. unfold StudentBase_init.
  destruct (req_uni d "uni") as [un|] eqn:Hu; simpl; [|discriminate].
  apply req_uni_ok in Hu. intros H.
  repeat match type of H with
  | mbind _ ?m = _ => destruct m; simpl in H; [|discriminate H]
  end.
  injection H as <-. simpl. apply Hshape, Hu.
Qed.

Lemma UNIType_shape_witness :
  ((3 ≤ String.length "abc1234" ≤ 7)%nat ∧
   re.all_in (λ c, re.lower_az c || re.digit c) "abc1234" = true) ∧
  ((3 ≤ String.length (uni ada) ≤ 7)%nat ∧
   re.all_in (λ c, re.lower_az c || re.digit c) (uni ada) = true).
Proof.
  destruct (UNIType_shape has_at) as [Hs Hv]. split.
  - apply Hs. reflexivity.
  - apply (Hv (StudentBase_model_dump ada)). vm_compute. reflexivity.
Defined.

End uni_shape.
